(** * Verification of [automation/autogenerate_notebooks_table.py]

    The script turns the rows of a comma-separated data file into two
    Markdown tables and splices them into a README between two marker
    lines.  This development embeds the script function by function and
    proves the properties of its specification.

    Conventions of the embedding.
    - A Python [str] is a [string]: a sequence of code points below 256.
      [isspace] and [lower] are Python's predicates restricted to that
      range.
    - A Python list is a [list]; the slices [xs[:n]] and [xs[n:]] with
      [n >= 0] are [take n xs] and [drop n xs].
    - A call that may raise has type [result A]; the exception is a value
      of [exn].
    - The two files are a finite map from paths to texts, threaded through
      the main program by the state-and-error monad [io]. *)

From Stdlib Require Import Ascii String DecimalString.
From stdpp Require Import base option list sorting gmap strings.

Local Open Scope stdpp_scope.

(* string concatenation unfolds on a constructor, as list concatenation does *)
#[local] Arguments String.append !_ _ / : simpl nomatch.

(** ** Exceptions and the error monad *)

Inductive exn : Type :=
  | Exception (msg : string)
    (** [raise Exception(msg)] *)
  | EnumValueError (cls value : string)
    (** the [ValueError] of an [Enum] lookup: [value] is no member of [cls] *)
  | IndexError
    (** a list index out of range, or [str.format] with fewer arguments
        than replacement fields *)
  | FormatValueError
    (** the [ValueError] of [str.format] on a lone brace; also stands for
        replacement fields other than [{}], which the model leaves out *)
  | UnpackValueError
    (** the [ValueError] of a list pattern [[a, b] = xs] on a list of
        another length *)
  | FileNotFoundError (path : string).

Inductive result (A : Type) : Type :=
  | Ok (a : A)
  | Raise (e : exn).
Arguments Ok {A} a.
Arguments Raise {A} e.

#[global] Instance result_ret : MRet result := λ A a, Ok a.
#[global] Instance result_bind : MBind result := λ A B f m,
  match m with
  | Ok a => f a
  | Raise e => Raise e
  end.

#[global] Instance exn_eq_dec : EqDecision exn.
Proof. solve_decision. Defined.
#[global] Instance result_eq_dec `{EqDecision A} : EqDecision (result A).
Proof. solve_decision. Defined.

(** ** Python string primitives *)

(** [str.isspace] on one code point below 256: TAB..CR, FS..US, SPACE,
    NEL and NBSP. *)
Definition isspace (c : ascii) : bool :=
  let n := nat_of_ascii c in
  ((9 <=? n) && (n <=? 13)) || ((28 <=? n) && (n <=? 32))
  || (n =? 133) || (n =? 160).

Fixpoint lstrip (s : string) : string :=
  match s with
  | String c rest => if isspace c then lstrip rest else s
  | EmptyString => EmptyString
  end.

Fixpoint rstrip (s : string) : string :=
  match s with
  | EmptyString => EmptyString
  | String c rest =>
      match rstrip rest with
      | EmptyString => if isspace c then EmptyString else String c EmptyString
      | kept => String c kept
      end
  end.

(** [s.strip()] *)
Definition strip (s : string) : string := rstrip (lstrip s).

(** [s.lower()] on code points below 256: A..Z and the accented capitals
    of Latin-1 move up by 32. *)
Definition lower_char (c : ascii) : ascii :=
  let n := nat_of_ascii c in
  if ((65 <=? n) && (n <=? 90))
     || ((192 <=? n) && (n <=? 222) && negb (n =? 215))
  then ascii_of_nat (n + 32) else c.

Fixpoint lower (s : string) : string :=
  match s with
  | EmptyString => EmptyString
  | String c rest => String (lower_char c) (lower rest)
  end.

(** [s.split(sep)] for a one-character separator: never an empty list. *)
Fixpoint split (sep : ascii) (s : string) : list string :=
  match s with
  | EmptyString => [EmptyString]
  | String c rest =>
      if Ascii.eqb c sep then EmptyString :: split sep rest
      else match split sep rest with
           | field :: fields => String c field :: fields
           | [] => [String c EmptyString]
           end
  end.

(** [s.startswith(p)] *)
Fixpoint startswith (p s : string) : bool :=
  match p, s with
  | EmptyString, _ => true
  | String a p', String b s' => Ascii.eqb a b && startswith p' s'
  | String _ _, EmptyString => false
  end.

(** [token in line] *)
Fixpoint contains (token line : string) : bool :=
  startswith token line ||
  match line with
  | EmptyString => false
  | String _ rest => contains token rest
  end.

(** [xs[i]] for [i >= 0] *)
Definition getitem {A} (xs : list A) (i : nat) : result A :=
  match xs !! i with
  | Some x => Ok x
  | None => Raise IndexError
  end.

(** [str(n)] for a non-negative integer *)
Definition str (n : nat) : string := NilEmpty.string_of_uint (Nat.to_uint n).

(** [pattern.format(arg, ...)] for patterns whose replacement fields are all
    the automatic field [{}]; doubled braces are literal braces. *)
Fixpoint str_format (pattern : string) (args : list string) : result string :=
  match pattern with
  | EmptyString => Ok EmptyString
  | String "{" (String "}" rest) =>
      match args with
      | arg :: args' => tail ← str_format rest args'; Ok (arg +:+ tail)
      | [] => Raise IndexError
      end
  | String "{" (String "{" rest) =>
      tail ← str_format rest args; Ok (String "{" tail)
  | String "}" (String "}" rest) =>
      tail ← str_format rest args; Ok (String "}" tail)
  | String "{" _ | String "}" _ => Raise FormatValueError
  | String c rest => tail ← str_format rest args; Ok (String c tail)
  end.

(** ** Module constants *)

Definition NOTEBOOKS_ROOT_PATH : string :=
  "https://github.com/roboflow-ai/notebooks/blob/main/notebooks".
Definition NOTEBOOKS_COLAB_ROOT_PATH : string :=
  "github/roboflow-ai/notebooks/blob/main/notebooks".

Definition WARNING_HEADER : list string := [
  "<!---";
  "   WARNING: DO NOT EDIT THIS TABLE MANUALLY. IT IS AUTOMATICALLY GENERATED.";
  "   HEAD OVER TO CONTRIBUTING.MD FOR MORE DETAILS ON HOW TO MAKE CHANGES PROPERLY.";
  "-->"
].

Definition TABLE_HEADER : list string := [
  "| **notebook** | **colab / kaggle** | **blog / youtube** | **repository / paper** |";
  "|:------------:|:-------------------------------------------------:|:---------------------------:|:----------------------:|"
].

Definition MODELS_SECTION_HEADER : string :=
  "## Model Experiments ({} notebooks)".
Definition APPLIED_SECTION_HEADER : string :=
  "## Applied computer vision in real world scenarios ({} notebooks)".

Definition NOTEBOOK_LINK_PATTERN : string := "[{}]({}/{})".
Definition OPEN_IN_COLAB_BADGE_PATTERN : string :=
  "[![Colab](https://colab.research.google.com/assets/colab-badge.svg)](https://colab.research.google.com/{}/{})".
Definition OPEN_IN_KAGGLE_BADGE_PATTERN : string :=
  "[![Kaggle](https://kaggle.com/static/images/open-in-kaggle.svg)](https://kaggle.com/kernels/welcome?src={}/{})".
Definition ROBOFLOW_BADGE_PATTERN : string :=
  "[![Roboflow](https://raw.githubusercontent.com/roboflow-ai/notebooks/main/assets/badges/roboflow-blogpost.svg)]({})".
Definition YOUTUBE_BADGE_PATTERN : string :=
  "[![YouTube](https://badges.aleen42.com/src/youtube.svg)]({})".
Definition GITHUB_BADGE_PATTERN : string :=
  "[![GitHub](https://badges.aleen42.com/src/github.svg)]({})".
Definition ARXIV_BADGE_PATTERN : string :=
  "[![arXiv](https://img.shields.io/badge/arXiv-{}-b31b1b.svg)](https://arxiv.org/abs/{})".

Definition AUTOGENERATED_NOTEBOOKS_TABLE_TOKEN : string :=
  "<!--- AUTOGENERATED-NOTEBOOKS-TABLE -->".

(** ** [READMESection] *)

Module READMESection.

Inductive t : Type := MODELS | APPLIED.

#[global] Instance eq_dec : EqDecision t.
Proof. solve_decision. Defined.

(** the [value] attribute of a member *)
Definition value (section : t) : string :=
  match section with
  | MODELS => "models"
  | APPLIED => "applied"
  end.

(** [READMESection(v)]: the member whose value equals [v] *)
Definition by_value (v : string) : result t :=
  if String.eqb v (value MODELS) then Ok MODELS
  else if String.eqb v (value APPLIED) then Ok APPLIED
  else Raise (EnumValueError "READMESection" v).

(** [READMESection.from_value(v)].  The bracketed text of the message is
    Python's [repr] of [READMESection.list()]. *)
Definition from_value (v : string) : result t :=
  match by_value (lower v) with
  | Ok section => Ok section
  | Raise _ =>
      Raise (Exception ("READMESection must be one of ['models', 'applied'], "
                        +:+ v +:+ " given."))
  end.

(** [READMESection.list()] *)
Definition list : list string := value <$> [MODELS; APPLIED].

End READMESection.

(** ** [TableEntry] *)

(** [f(v) if v else ''] for an optional string [v]: [None] and the empty
    string are falsy. *)
Definition if_truthy (v : option string) (f : string → result string)
  : result string :=
  match v with
  | Some (String _ _ as s) => f s
  | Some EmptyString | None => Ok EmptyString
  end.

Module TableEntry.

Record t : Type := {
  display_name : string;
  notebook_name : string;
  roboflow_blogpost_path : option string;
  youtube_video_path : option string;
  github_repository_path : option string;
  arxiv_index : option string;
  readme_section : READMESection.t
}.

Definition from_csv_line (csv_line : string) : result t :=
  let csv_fields := strip <$> split "," csv_line in
  if decide (length csv_fields ≠ 7)
  then Raise (Exception "Every csv line must contain 7 fields")
  else
    field0 ← getitem csv_fields 0;
    field1 ← getitem csv_fields 1;
    field2 ← getitem csv_fields 2;
    field3 ← getitem csv_fields 3;
    field4 ← getitem csv_fields 4;
    field5 ← getitem csv_fields 5;
    field6 ← getitem csv_fields 6;
    section ← READMESection.by_value field6;
    Ok {| display_name := field0;
          notebook_name := field1;
          roboflow_blogpost_path := Some field2;
          youtube_video_path := Some field3;
          github_repository_path := Some field4;
          arxiv_index := Some field5;
          readme_section := section |}.

Definition format (self : t) : result string :=
  notebook_link ← str_format NOTEBOOK_LINK_PATTERN
    [display_name self; NOTEBOOKS_ROOT_PATH; notebook_name self];
  open_in_colab_badge ← str_format OPEN_IN_COLAB_BADGE_PATTERN
    [NOTEBOOKS_COLAB_ROOT_PATH; notebook_name self];
  open_in_kaggle_badge ← str_format OPEN_IN_KAGGLE_BADGE_PATTERN
    [NOTEBOOKS_ROOT_PATH; notebook_name self];
  roboflow_badge ← if_truthy (roboflow_blogpost_path self)
    (λ path, str_format ROBOFLOW_BADGE_PATTERN [path]);
  youtube_badge ← if_truthy (youtube_video_path self)
    (λ path, str_format YOUTUBE_BADGE_PATTERN [path]);
  github_badge ← if_truthy (github_repository_path self)
    (λ path, str_format GITHUB_BADGE_PATTERN [path]);
  arxiv_badge ← if_truthy (arxiv_index self)
    (λ index, str_format ARXIV_BADGE_PATTERN [index; index]);
  Ok ("| " +:+ notebook_link +:+ " | " +:+ open_in_colab_badge +:+ " "
      +:+ open_in_kaggle_badge +:+ " | " +:+ roboflow_badge +:+ " "
      +:+ youtube_badge +:+ " | " +:+ github_badge +:+ " " +:+ arxiv_badge
      +:+ "|").

End TableEntry.

(** ** The files and the monad of the main program *)

(** A program step reads and writes the files and may raise. *)
Definition io (A : Type) : Type :=
  gmap string string → result A * gmap string string.

#[global] Instance io_ret : MRet io := λ A a fs, (Ok a, fs).
#[global] Instance io_bind : MBind io := λ A B f m fs,
  match m fs with
  | (Ok a, fs') => f a fs'
  | (Raise e, fs') => (Raise e, fs')
  end.

(** a computation that touches no file *)
Definition pure {A} (r : result A) : io A := λ fs, (r, fs).

(** The lines of a text as iterating over the open file yields them: each
    line keeps its newline, the last one may lack it.  The text is the one
    Python sees, after decoding and newline translation. *)
Fixpoint file_lines (text : string) : list string :=
  match text with
  | EmptyString => []
  | String c rest =>
      if Ascii.eqb c "010" then String c EmptyString :: file_lines rest
      else match file_lines rest with
           | line :: lines => String c line :: lines
           | [] => [String c EmptyString]
           end
  end.

Definition read_lines_from_file (path : string) : io (list string) := λ fs,
  match fs !! path with
  | Some text => (Ok (rstrip <$> file_lines text), fs)
  | None => (Raise (FileNotFoundError path), fs)
  end.

(** [open(path, "w")]: the file is created, or emptied when it exists *)
Definition open_for_writing (path : string) : io () := λ fs,
  (Ok (), <[path := EmptyString]> fs).

(** [f.write(text)] on the file opened at [path]: the text goes at its end *)
Definition write (path text : string) : io () := λ fs,
  (Ok (), alter (λ written, written +:+ text) path fs).

(** [for x in xs: body(x)] *)
Fixpoint for_each {A} (xs : list A) (body : A → io ()) : io () :=
  match xs with
  | [] => mret ()
  | x :: rest => body x ≫= λ _, for_each rest body
  end.

Definition save_lines_to_file (path : string) (lines : list string) : io () :=
  open_for_writing path ≫= λ _,
  for_each lines (λ line, write path (line +:+ String "010" EmptyString)).

(** ** Parsing, marker search and splicing *)

Definition parse_csv_lines (csv_lines : list string)
  : result (list TableEntry.t) :=
  mapM TableEntry.from_csv_line csv_lines.

(** [enumerate(lines)] *)
Definition enumerate {A} (lines : list A) : list (nat * A) := imap pair lines.

Definition search_lines_with_token (lines : list string) (token : string)
  : list nat :=
  foldl (λ result '(line_index, line),
           if contains token line then result ++ [line_index] else result)
        [] (enumerate lines).

Definition inject_markdown_table_into_readme
    (readme_lines table_lines : list string) : result (list string) :=
  let lines_with_token_indexes :=
    search_lines_with_token readme_lines AUTOGENERATED_NOTEBOOKS_TABLE_TOKEN in
  if decide (length lines_with_token_indexes ≠ 2)
  then Raise (Exception ("Please inject two "
                         +:+ AUTOGENERATED_NOTEBOOKS_TABLE_TOKEN +:+ " "
                         +:+ "tokens to signal start and end of autogenerated table."))
  else
    match lines_with_token_indexes with
    | [table_start_line_index; table_end_line_index] =>
        Ok (take (table_start_line_index + 1) readme_lines
            ++ table_lines ++ drop table_end_line_index readme_lines)
    | _ => Raise UnpackValueError
    end.

(** ** The main program *)

Record Args : Type := { data_path : string; readme_path : string }.

(** The computation of [models_lines], [APPLIED_lines] and [table_lines] in
    the main block: the lines that go between the two markers. *)
Definition render_table_lines (table_entries : list TableEntry.t)
  : result (list string) :=
  models_lines ← mapM TableEntry.format
    (filter (λ entry, TableEntry.readme_section entry = READMESection.MODELS)
            table_entries);
  APPLIED_lines ← mapM TableEntry.format
    (filter (λ entry, TableEntry.readme_section entry = READMESection.APPLIED)
            table_entries);
  models_header ← str_format MODELS_SECTION_HEADER [str (length models_lines)];
  applied_header ← str_format APPLIED_SECTION_HEADER [str (length APPLIED_lines)];
  Ok (WARNING_HEADER ++ [models_header] ++ TABLE_HEADER ++ models_lines
      ++ [applied_header] ++ TABLE_HEADER ++ APPLIED_lines).

Definition main (args : Args) : io () :=
  data_lines ← read_lines_from_file (data_path args);
  let csv_lines := drop 1 data_lines in
  readme_lines ← read_lines_from_file (readme_path args);
  table_entries ← pure (parse_csv_lines csv_lines);
  table_lines ← pure (render_table_lines table_entries);
  readme_lines ← pure (inject_markdown_table_into_readme readme_lines table_lines);
  save_lines_to_file (readme_path args) readme_lines.

(** ** Vocabulary of the specification *)

(** a line that carries the sentinel token *)
Definition has_token (line : string) : bool :=
  contains AUTOGENERATED_NOTEBOOKS_TABLE_TOKEN line.

(** the number of lines of a document that carry the sentinel token *)
Definition marker_count (lines : list string) : nat :=
  length (filter (λ line, has_token line) lines).

(** the indexes, counted from [start], of the lines that contain [token] *)
Fixpoint indexes_from (token : string) (start : nat) (lines : list string)
  : list nat :=
  match lines with
  | [] => []
  | line :: rest =>
      if contains token line then start :: indexes_from token (S start) rest
      else indexes_from token (S start) rest
  end.

(** the text of a file written line by line: every line and a newline *)
Definition written_text (lines : list string) : string :=
  foldr (λ line text, line +:+ String "010" text) EmptyString lines.

(** an optional field that renders no badge: absent or empty *)
Definition blank (v : option string) : Prop := v = None ∨ v = Some EmptyString.

(** The parts of a table row, written out from the row format of the
    specification. *)
Definition notebook_link (entry : TableEntry.t) : string :=
  "[" +:+ TableEntry.display_name entry +:+ "](" +:+ NOTEBOOKS_ROOT_PATH
  +:+ "/" +:+ TableEntry.notebook_name entry +:+ ")".

Definition colab_badge (entry : TableEntry.t) : string :=
  "[![Colab](https://colab.research.google.com/assets/colab-badge.svg)](https://colab.research.google.com/"
  +:+ NOTEBOOKS_COLAB_ROOT_PATH +:+ "/" +:+ TableEntry.notebook_name entry
  +:+ ")".

Definition kaggle_badge (entry : TableEntry.t) : string :=
  "[![Kaggle](https://kaggle.com/static/images/open-in-kaggle.svg)](https://kaggle.com/kernels/welcome?src="
  +:+ NOTEBOOKS_ROOT_PATH +:+ "/" +:+ TableEntry.notebook_name entry +:+ ")".

Definition blog_badge (entry : TableEntry.t) : string :=
  match TableEntry.roboflow_blogpost_path entry with
  | Some (String _ _ as path) =>
      "[![Roboflow](https://raw.githubusercontent.com/roboflow-ai/notebooks/main/assets/badges/roboflow-blogpost.svg)]("
      +:+ path +:+ ")"
  | _ => EmptyString
  end.

Definition youtube_badge (entry : TableEntry.t) : string :=
  match TableEntry.youtube_video_path entry with
  | Some (String _ _ as path) =>
      "[![YouTube](https://badges.aleen42.com/src/youtube.svg)](" +:+ path +:+ ")"
  | _ => EmptyString
  end.

Definition github_badge (entry : TableEntry.t) : string :=
  match TableEntry.github_repository_path entry with
  | Some (String _ _ as path) =>
      "[![GitHub](https://badges.aleen42.com/src/github.svg)](" +:+ path +:+ ")"
  | _ => EmptyString
  end.

Definition arxiv_badge (entry : TableEntry.t) : string :=
  match TableEntry.arxiv_index entry with
  | Some (String _ _ as index) =>
      "[![arXiv](https://img.shields.io/badge/arXiv-" +:+ index
      +:+ "-b31b1b.svg)](https://arxiv.org/abs/" +:+ index +:+ ")"
  | _ => EmptyString
  end.

(** [| {link} | {colab_badge} {kaggle_badge} | {blog_badge} {youtube_badge} | {github_badge} {arxiv_badge}|] *)
Definition row_of (entry : TableEntry.t) : string :=
  "| " +:+ notebook_link entry +:+ " | " +:+ colab_badge entry +:+ " "
  +:+ kaggle_badge entry +:+ " | " +:+ blog_badge entry +:+ " "
  +:+ youtube_badge entry +:+ " | " +:+ github_badge entry +:+ " "
  +:+ arxiv_badge entry +:+ "|".

(** the number of occurrences of a character *)
Fixpoint count_char (c : ascii) (s : string) : nat :=
  match s with
  | EmptyString => 0
  | String c' rest => (if Ascii.eqb c' c then 1 else 0) + count_char c rest
  end.

(** The cells of a Markdown table row that opens and closes with a pipe:
    the pieces between consecutive pipes. *)
Definition pipe_delimited_cells (row : string) : list string :=
  let pieces := split "|" row in
  take (length pieces - 2) (drop 1 pieces).

(** the pipes that the text of an optional field brings into a row *)
Definition pipes_of (v : option string) : nat :=
  count_char "|" (default EmptyString v).

(** Reading a display link back, for the round trip of the specification.
    [strip_prefix p s] is the rest of [s] after its prefix [p],
    [strip_last c s] is [s] without its last character [c], and
    [split_at_first sep s] is the text before and the text after the first
    occurrence of [sep] in [s]. *)
Fixpoint strip_prefix (p s : string) : option string :=
  match p, s with
  | EmptyString, _ => Some s
  | String a p', String b s' => if Ascii.eqb a b then strip_prefix p' s' else None
  | String _ _, EmptyString => None
  end.

Fixpoint strip_last (c : ascii) (s : string) : option string :=
  match s with
  | EmptyString => None
  | String a rest =>
      match rest with
      | EmptyString => if Ascii.eqb a c then Some EmptyString else None
      | String _ _ => String a <$> strip_last c rest
      end
  end.

Fixpoint split_at_first (sep s : string) : option (string * string) :=
  match strip_prefix sep s with
  | Some after => Some (EmptyString, after)
  | None =>
      match s with
      | EmptyString => None
      | String c rest =>
          '(before, after) ← split_at_first sep rest; Some (String c before, after)
      end
  end.

(** the text between the display name and the notebook name of a link *)
Definition LINK_SEPARATOR : string := "](" +:+ NOTEBOOKS_ROOT_PATH +:+ "/".

(** A link read against the pattern [[{display}]({root}/{notebook})]: the
    display name runs up to the first [](root/] and the notebook name from
    there to the closing parenthesis. *)
Definition reparse_link (link : string) : option (string * string) :=
  body ← strip_prefix "[" link;
  '(display, rest) ← split_at_first LINK_SEPARATOR body;
  notebook ← strip_last ")" rest;
  Some (display, notebook).

(** [t] occurs in [s] as a substring *)
Definition substring_of (t s : string) : Prop :=
  ∃ before after, s = before +:+ t +:+ after.

(** a line as reading a file yields it: no newline in it and no white
    space at its end *)
Definition clean_line (line : string) : Prop :=
  count_char "010" line = 0 ∧ rstrip line = line.

(** the occurrences of a character in the text of an optional field *)
Definition occurrences (c : ascii) (v : option string) : nat :=
  count_char c (default EmptyString v).

(** no field of the entry contains the character *)
Definition entry_free (c : ascii) (entry : TableEntry.t) : Prop :=
  count_char c (TableEntry.display_name entry) = 0 ∧
  count_char c (TableEntry.notebook_name entry) = 0 ∧
  occurrences c (TableEntry.roboflow_blogpost_path entry) = 0 ∧
  occurrences c (TableEntry.youtube_video_path entry) = 0 ∧
  occurrences c (TableEntry.github_repository_path entry) = 0 ∧
  occurrences c (TableEntry.arxiv_index entry) = 0.

(** * The primitives on sample inputs

    Each equation is the behaviour of the Python primitive on that input. *)

Example split_samples :
  split "," "a, b ,c" = ["a"; " b "; "c"] ∧
  split "," EmptyString = [EmptyString] ∧
  split "," "," = [EmptyString; EmptyString] ∧
  split "," "a,,b," = ["a"; EmptyString; "b"; EmptyString].
Proof. by repeat split. Qed.

Example strip_samples :
  strip ("  a b " +:+ String "009" (String "010" EmptyString)) = "a b" ∧
  strip "   " = EmptyString ∧
  rstrip ("  x" +:+ String "010" EmptyString) = "  x" ∧
  lower "MoDeLs" = "models".
Proof. by repeat split. Qed.

Example contains_samples :
  contains "b" "abc" = true ∧ contains EmptyString "abc" = true ∧
  contains "ac" "abc" = false ∧ contains "abc" "ab" = false.
Proof. by repeat split. Qed.

Example str_format_samples :
  str_format "[{}]({}/{})" ["a"; "b"; "c"] = Ok "[a](b/c)" ∧
  str_format "{} and {}" ["a"] = Raise IndexError ∧
  str_format "{}" ["a"; "b"] = Ok "a" ∧
  str_format "{{}}" ["a"] = Ok "{}" ∧
  str_format "({} notebooks)" [str 12] = Ok "(12 notebooks)" ∧
  str 0 = "0".
Proof. by repeat split. Qed.

Example file_lines_samples :
  file_lines ("a " +:+ String "010" ("b" +:+ String "010" EmptyString))
  = ["a " +:+ String "010" EmptyString; "b" +:+ String "010" EmptyString] ∧
  file_lines ("a" +:+ String "010" "b") = ["a" +:+ String "010" EmptyString; "b"] ∧
  file_lines EmptyString = [] ∧
  written_text ["a"; "b"] = "a" +:+ String "010" ("b" +:+ String "010" EmptyString).
Proof. by repeat split. Qed.

Example search_samples :
  search_lines_with_token ["x"; "a-b"; "y"; "-"; "--"] "-" = [1; 3; 4] ∧
  search_lines_with_token [] "-" = [] ∧
  enumerate ["a"; "b"] = [(0, "a"); (1, "b")].
Proof. by repeat split. Qed.

(** * Facts about the string primitives *)

Section strings.
Implicit Types (s t p : string) (c : ascii).

Lemma append_nil_r s : s +:+ EmptyString = s.
Proof. induction s as [|c s IH]; simpl; [done | by rewrite IH]. Qed.

Lemma append_assoc s t p : (s +:+ t) +:+ p = s +:+ t +:+ p.
Proof. induction s as [|c s IH]; simpl; [done | by rewrite IH]. Qed.

Lemma startswith_spec p s : startswith p s = true ↔ ∃ rest, s = p +:+ rest.
Proof.
  revert s. induction p as [|a p IH]; intros s; simpl.
  - split; [intros _; by exists s | done].
  - destruct s as [|b s].
    + split; [done | intros [rest Hrest]; discriminate].
    + rewrite andb_true_iff, Ascii.eqb_eq, IH. split.
      * intros [-> [rest ->]]. by exists rest.
      * intros [rest Heq]. simpl in Heq. injection Heq as -> ->. eauto.
Qed.

Lemma contains_spec t s : contains t s = true ↔ substring_of t s.
Proof.
  unfold substring_of. induction s as [|c s IH].
  - simpl. rewrite orb_false_r, startswith_spec. split.
    + intros [rest Hrest]. by exists EmptyString, rest.
    + intros [[|c before] [after Heq]]; [eauto | discriminate].
  - cbn [contains]. rewrite orb_true_iff, startswith_spec, IH. split.
    + intros [[rest Hrest] | (before & after & ->)].
      * by exists EmptyString, rest.
      * by exists (String c before), after.
    + intros [[|c' before] [after Heq]].
      * left. by exists after.
      * right. injection Heq as -> ->. eauto.
Qed.

Lemma contains_append_l t s p : contains t s = true → contains t (p +:+ s) = true.
Proof.
  rewrite !contains_spec. intros (before & after & ->).
  exists (p +:+ before), after. by rewrite append_assoc.
Qed.

Lemma contains_append_r t s p : contains t s = true → contains t (s +:+ p) = true.
Proof.
  rewrite !contains_spec. intros (before & after & ->).
  exists before, (after +:+ p). by rewrite !append_assoc.
Qed.

Lemma contains_refl t : contains t t = true.
Proof.
  apply contains_spec. exists EmptyString, EmptyString.
  simpl. by rewrite append_nil_r.
Qed.

End strings.

(** * Marker search *)

Section search.
Context (token : string).
Implicit Types (lines : list string) (line : string).

Lemma search_loop lines (f : nat → string → nat * string) start acc :
  (∀ i line, f i line = (start + i, line)) →
  foldl (λ result '(line_index, line),
           if contains token line then result ++ [line_index] else result)
        acc (imap f lines)
  = acc ++ indexes_from token start lines.
Proof.
  revert f start acc. induction lines as [|line lines IH]; intros f start acc Hf.
  - simpl. by rewrite app_nil_r.
  - rewrite imap_cons. cbn [foldl indexes_from].
    rewrite Hf, Nat.add_0_r.
    rewrite (IH _ (S start)).
    + destruct (contains token line); [by rewrite <- app_assoc | done].
    + intros i l. simpl. rewrite Hf. f_equal. lia.
Qed.

Lemma search_indexes lines :
  search_lines_with_token lines token = indexes_from token 0 lines.
Proof. unfold search_lines_with_token, enumerate. by rewrite (search_loop _ _ 0). Qed.

Lemma indexes_from_app start lines1 lines2 :
  indexes_from token start (lines1 ++ lines2)
  = indexes_from token start lines1
    ++ indexes_from token (start + length lines1) lines2.
Proof.
  revert start. induction lines1 as [|line lines1 IH]; intros start; simpl.
  - by rewrite Nat.add_0_r.
  - rewrite IH, <- Nat.add_succ_comm. by destruct (contains token line).
Qed.

Lemma indexes_from_none start lines :
  Forall (λ line, contains token line = false) lines →
  indexes_from token start lines = [].
Proof.
  intros Hnone. revert start.
  induction Hnone as [|line lines Hline _ IH]; intros start; simpl; [done|].
  by rewrite Hline.
Qed.

Lemma indexes_from_length start lines :
  length (indexes_from token start lines)
  = length (filter (λ line, contains token line) lines).
Proof.
  revert start. induction lines as [|line lines IH]; intros start; [done|].
  rewrite filter_cons. simpl. destruct (contains token line); simpl.
  - by rewrite IH.
  - apply IH.
Qed.

Lemma indexes_from_elem start lines i :
  i ∈ indexes_from token start lines ↔
  ∃ j line, i = start + j ∧ lines !! j = Some line ∧ contains token line = true.
Proof.
  revert start. induction lines as [|line lines IH]; intros start; simpl.
  - split; [by intros ?%elem_of_nil | by intros (j & l & _ & ? & _)].
  - assert (i ∈ indexes_from token (S start) lines ↔
            ∃ j l, i = start + S j ∧ lines !! j = Some l ∧ contains token l = true)
      as Htail.
    { rewrite IH. by setoid_rewrite Nat.add_succ_comm. }
    destruct (contains token line) eqn:Hline.
    + rewrite elem_of_cons, Htail. split.
      * intros [-> | (j & l & -> & Hj & Hl)].
        -- exists 0, line. by rewrite Nat.add_0_r.
        -- by exists (S j), l.
      * intros ([|j] & l & -> & Hj & Hl).
        -- left. lia.
        -- right. by exists j, l.
    + rewrite Htail. split.
      * intros (j & l & -> & Hj & Hl). by exists (S j), l.
      * intros ([|j] & l & -> & Hj & Hl).
        -- simpl in Hj. congruence.
        -- by exists j, l.
Qed.

Lemma indexes_from_lower start lines :
  Forall (λ i, start ≤ i) (indexes_from token start lines).
Proof.
  apply Forall_forall. intros i (j & _ & -> & _)%indexes_from_elem. lia.
Qed.

Lemma indexes_from_sorted start lines :
  StronglySorted lt (indexes_from token start lines).
Proof.
  revert start. induction lines as [|line lines IH]; intros start; simpl.
  - constructor.
  - destruct (contains token line); [|apply IH].
    constructor; [apply IH|].
    eapply Forall_impl; [apply (indexes_from_lower (S start))|].
    simpl. lia.
Qed.

(** A document with exactly two lines that contain the token splits around
    them. *)
Lemma filter_cons_split lines line kept :
  filter (λ line, contains token line) lines = line :: kept →
  ∃ before after,
    lines = before ++ line :: after ∧
    Forall (λ line, contains token line = false) before ∧
    contains token line = true ∧
    filter (λ line, contains token line) after = kept.
Proof.
  induction lines as [|l lines IH]; [done|].
  rewrite filter_cons. destruct (contains token l) eqn:Hl; simpl.
  - intros [= -> <-]. exists [], lines. by repeat split.
  - intros (before & after & -> & Hbefore & Hline & Hkept)%IH.
    exists (l :: before), after. repeat split; [by constructor | done..].
Qed.

Lemma filter_nil_none lines :
  filter (λ line, contains token line) lines = [] →
  Forall (λ line, contains token line = false) lines.
Proof.
  induction lines as [|l lines IH]; [constructor|].
  rewrite filter_cons. destruct (contains token l) eqn:Hl; simpl; [done|].
  intros Hnil. constructor; auto.
Qed.

Lemma two_lines_split lines :
  length (filter (λ line, contains token line) lines) = 2 →
  ∃ before first between second after,
    lines = before ++ first :: between ++ second :: after ∧
    contains token first = true ∧ contains token second = true ∧
    Forall (λ line, contains token line = false) before ∧
    Forall (λ line, contains token line = false) between ∧
    Forall (λ line, contains token line = false) after.
Proof.
  destruct (filter _ lines) as [|first [|second [|]]] eqn:Hfilter; try done.
  intros _.
  apply filter_cons_split in Hfilter
    as (before & rest & -> & Hbefore & Hfirst & Hrest).
  apply filter_cons_split in Hrest
    as (between & after & -> & Hbetween & Hsecond & Hafter).
  apply filter_nil_none in Hafter.
  by exists before, first, between, second, after.
Qed.

Lemma split_indexes before first between second after :
  contains token first = true → contains token second = true →
  Forall (λ line, contains token line = false) before →
  Forall (λ line, contains token line = false) between →
  Forall (λ line, contains token line = false) after →
  search_lines_with_token (before ++ first :: between ++ second :: after) token
  = [length before; length before + S (length between)].
Proof.
  intros Hfirst Hsecond Hbefore Hbetween Hafter.
  rewrite search_indexes, indexes_from_app, (indexes_from_none _ before) by done.
  simpl. rewrite Hfirst, indexes_from_app, (indexes_from_none _ between) by done.
  simpl. rewrite Hsecond, (indexes_from_none _ after) by done.
  do 2 f_equal. lia.
Qed.

End search.

(** * Splicing *)

Lemma sorted_lt_NoDup (indexes : list nat) :
  StronglySorted lt indexes → NoDup indexes.
Proof.
  induction 1 as [|i indexes _ IH Hall]; constructor; [|done].
  intros Hin. rewrite Forall_forall in Hall. specialize (Hall _ Hin). lia.
Qed.

Lemma marker_count_app lines1 lines2 :
  marker_count (lines1 ++ lines2) = marker_count lines1 + marker_count lines2.
Proof. unfold marker_count. by rewrite filter_app, length_app. Qed.

Lemma marker_count_cons line lines :
  marker_count (line :: lines)
  = (if has_token line then 1 else 0) + marker_count lines.
Proof.
  unfold marker_count. rewrite filter_cons.
  by destruct (has_token line).
Qed.

Lemma marker_count_none lines :
  Forall (λ line, has_token line = false) lines → marker_count lines = 0.
Proof.
  induction 1 as [|line lines Hline _ IH]; [done|].
  by rewrite marker_count_cons, Hline, IH.
Qed.

Lemma marker_count_zero lines :
  marker_count lines = 0 → Forall (λ line, has_token line = false) lines.
Proof.
  intros Hzero. apply (filter_nil_none AUTOGENERATED_NOTEBOOKS_TABLE_TOKEN).
  by apply length_zero_iff_nil.
Qed.

Lemma search_length lines :
  length (search_lines_with_token lines AUTOGENERATED_NOTEBOOKS_TABLE_TOKEN)
  = marker_count lines.
Proof. rewrite search_indexes. apply indexes_from_length. Qed.

Lemma two_markers_split lines :
  marker_count lines = 2 →
  ∃ before first between second after,
    lines = before ++ first :: between ++ second :: after ∧
    has_token first = true ∧ has_token second = true ∧
    Forall (λ line, has_token line = false) before ∧
    Forall (λ line, has_token line = false) between ∧
    Forall (λ line, has_token line = false) after.
Proof. apply two_lines_split. Qed.

(** The outcome of the splice on a document split around its two markers. *)
Lemma inject_split before first between second after table_lines :
  has_token first = true → has_token second = true →
  Forall (λ line, has_token line = false) before →
  Forall (λ line, has_token line = false) between →
  Forall (λ line, has_token line = false) after →
  inject_markdown_table_into_readme
    (before ++ first :: between ++ second :: after) table_lines
  = Ok ((before ++ [first]) ++ table_lines ++ second :: after).
Proof.
  intros Hfirst Hsecond Hbefore Hbetween Hafter.
  unfold inject_markdown_table_into_readme.
  rewrite split_indexes by done. simpl. f_equal.
  f_equal; [|f_equal].
  - rewrite (cons_middle first), app_assoc.
    apply take_app_length'. rewrite length_app. simpl. lia.
  - rewrite (app_comm_cons between), app_assoc.
    apply drop_app_length'. rewrite length_app. simpl. lia.
Qed.

(** The message of the marker error names the sentinel token. *)
Lemma marker_message_names_token :
  substring_of AUTOGENERATED_NOTEBOOKS_TABLE_TOKEN
    ("Please inject two " +:+ AUTOGENERATED_NOTEBOOKS_TABLE_TOKEN +:+ " "
     +:+ "tokens to signal start and end of autogenerated table.").
Proof. by eexists _, _. Qed.

Lemma inject_raises readme_lines table_lines :
  marker_count readme_lines ≠ 2 →
  inject_markdown_table_into_readme readme_lines table_lines
  = Raise (Exception ("Please inject two "
      +:+ AUTOGENERATED_NOTEBOOKS_TABLE_TOKEN +:+ " "
      +:+ "tokens to signal start and end of autogenerated table.")).
Proof.
  intros Hcount. unfold inject_markdown_table_into_readme.
  rewrite search_length. by rewrite decide_True.
Qed.

(** C1.  When exactly two lines of the document contain the sentinel token,
    the splice returns the lines up to and including the first of them,
    then the table lines, then the lines from the second of them to the
    end: the second marker line and every line outside the replaced region
    are kept as they are. *)
Theorem inject_replaces_region_between_markers
    (readme_lines table_lines : list string) :
  marker_count readme_lines = 2 →
  ∃ before first between second after,
    readme_lines = before ++ first :: between ++ second :: after ∧
    has_token first = true ∧ has_token second = true ∧
    Forall (λ line, has_token line = false) (before ++ between ++ after) ∧
    inject_markdown_table_into_readme readme_lines table_lines
    = Ok ((before ++ [first]) ++ table_lines ++ second :: after).
Proof.
  intros (before & first & between & second & after & -> & Hfirst & Hsecond
          & Hbefore & Hbetween & Hafter)%two_markers_split.
  exists before, first, between, second, after.
  split_and!; [done..| |by apply inject_split].
  by rewrite !Forall_app.
Qed.

Lemma inject_replaces_region_between_markers_witness :
  let readme_lines :=
    ["# Notebooks"; "<!--- AUTOGENERATED-NOTEBOOKS-TABLE -->"; "old row";
     "end <!--- AUTOGENERATED-NOTEBOOKS-TABLE -->"; "footer"] in
  marker_count readme_lines = 2 ∧
  ∃ before first between second after,
    readme_lines = before ++ first :: between ++ second :: after ∧
    has_token first = true ∧ has_token second = true ∧
    Forall (λ line, has_token line = false) (before ++ between ++ after) ∧
    inject_markdown_table_into_readme readme_lines ["new row"]
    = Ok ((before ++ [first]) ++ ["new row"] ++ second :: after).
Proof.
  split; [reflexivity|].
  apply (inject_replaces_region_between_markers _ ["new row"]). reflexivity.
Defined.

(** C2.  The splice raises, with a message that names the sentinel token,
    exactly when the number of lines containing the token is not two; with
    exactly two such lines it returns a document. *)
Theorem inject_raises_iff_not_two_markers
    (readme_lines table_lines : list string) :
  (marker_count readme_lines ≠ 2 ↔
   ∃ msg, inject_markdown_table_into_readme readme_lines table_lines
          = Raise (Exception msg)
          ∧ substring_of AUTOGENERATED_NOTEBOOKS_TABLE_TOKEN msg) ∧
  (marker_count readme_lines = 2 ↔
   ∃ spliced, inject_markdown_table_into_readme readme_lines table_lines
              = Ok spliced).
Proof.
  destruct (decide (marker_count readme_lines = 2)) as [Htwo | Hother].
  - destruct (inject_replaces_region_between_markers readme_lines table_lines Htwo)
      as (before & first & between & second & after & _ & _ & _ & _ & ->).
    split; split; try done.
    + intros (msg & [=] & _).
    + eauto.
  - rewrite (inject_raises _ _ Hother). split; split; try done.
    + intros _. eexists. split; [done|]. apply marker_message_names_token.
    + intros [spliced [=]].
Qed.

(** C5.  Splicing is idempotent.  For a document with exactly two sentinel
    lines and table lines none of which contains the token, the spliced
    document again has exactly two sentinel lines, and splicing it once more
    with the same table lines returns it unchanged. *)
Theorem inject_idempotent (readme_lines table_lines : list string) :
  marker_count readme_lines = 2 →
  Forall (λ line, has_token line = false) table_lines →
  ∃ spliced,
    inject_markdown_table_into_readme readme_lines table_lines = Ok spliced ∧
    marker_count spliced = 2 ∧
    inject_markdown_table_into_readme spliced table_lines = Ok spliced.
Proof.
  intros (before & first & between & second & after & -> & Hfirst & Hsecond
          & Hbefore & Hbetween & Hafter)%two_markers_split Htable.
  rewrite inject_split by done. eexists. split; [done|].
  rewrite <- (app_assoc before [first]). simpl. split.
  - rewrite marker_count_app, marker_count_cons, marker_count_app,
      marker_count_cons, Hfirst, Hsecond.
    by rewrite !marker_count_none.
  - rewrite inject_split by done. by rewrite <- (app_assoc before [first]).
Qed.

Lemma inject_idempotent_witness :
  let readme_lines :=
    ["# Notebooks"; "<!--- AUTOGENERATED-NOTEBOOKS-TABLE -->"; "old row";
     "<!--- AUTOGENERATED-NOTEBOOKS-TABLE -->"; "footer"] in
  let table_lines := WARNING_HEADER ++ TABLE_HEADER in
  marker_count readme_lines = 2 ∧
  Forall (λ line, has_token line = false) table_lines ∧
  ∃ spliced,
    inject_markdown_table_into_readme readme_lines table_lines = Ok spliced ∧
    marker_count spliced = 2 ∧
    inject_markdown_table_into_readme spliced table_lines = Ok spliced.
Proof.
  split; [reflexivity|]. split; [by repeat constructor|].
  apply (inject_idempotent _ (WARNING_HEADER ++ TABLE_HEADER));
    [reflexivity | by repeat constructor].
Defined.

(** C10.  Marker detection counts lines, not occurrences of the token.
    The search returns the indexes of the lines that contain the token as a
    substring, in strictly increasing order, one index for each such line
    however often the token occurs in it; so a document whose only two
    occurrences of the sentinel share one line is rejected by the splice. *)
Theorem search_counts_lines_not_occurrences (lines : list string) (token : string) :
  (∀ i, i ∈ search_lines_with_token lines token ↔
        ∃ line, lines !! i = Some line ∧ substring_of token line) ∧
  StronglySorted lt (search_lines_with_token lines token) ∧
  NoDup (search_lines_with_token lines token) ∧
  length (search_lines_with_token lines token)
  = length (filter (λ line, contains token line) lines) ∧
  (∀ left middle right,
     search_lines_with_token [left +:+ token +:+ middle +:+ token +:+ right] token
     = [0]) ∧
  (∀ before after left middle right table_lines,
     Forall (λ line, has_token line = false) (before ++ after) →
     ∃ msg,
       inject_markdown_table_into_readme
         (before
          ++ (left +:+ AUTOGENERATED_NOTEBOOKS_TABLE_TOKEN +:+ middle
              +:+ AUTOGENERATED_NOTEBOOKS_TABLE_TOKEN +:+ right) :: after)
         table_lines
       = Raise (Exception msg)).
Proof.
  assert (∀ t left right, contains t (left +:+ t +:+ right) = true) as Hocc.
  { intros t left right. apply contains_spec. by exists left, right. }
  split_and!.
  - intros i. rewrite search_indexes, indexes_from_elem. split.
    + intros (j & line & -> & Hj & Hline%contains_spec). by exists line.
    + intros (line & Hi & Hline%contains_spec). by exists i, line.
  - rewrite search_indexes. apply indexes_from_sorted.
  - rewrite search_indexes. apply sorted_lt_NoDup, indexes_from_sorted.
  - rewrite search_indexes. apply indexes_from_length.
  - intros left middle right. rewrite search_indexes. simpl. by rewrite Hocc.
  - intros before after left middle right table_lines
      [Hbefore Hafter]%Forall_app.
    eexists. apply inject_raises.
    rewrite marker_count_app, marker_count_cons.
    unfold has_token at 1. rewrite Hocc.
    rewrite !marker_count_none by done. lia.
Qed.

Lemma search_counts_lines_not_occurrences_witness :
  ∃ msg,
    inject_markdown_table_into_readme
      (["title"]
       ++ ("start " +:+ AUTOGENERATED_NOTEBOOKS_TABLE_TOKEN +:+ " rows "
           +:+ AUTOGENERATED_NOTEBOOKS_TABLE_TOKEN +:+ " end") :: ["footer"])
      ["new row"]
    = Raise (Exception msg).
Proof.
  apply (search_counts_lines_not_occurrences
           ["title";
            "start <!--- AUTOGENERATED-NOTEBOOKS-TABLE --> rows <!--- AUTOGENERATED-NOTEBOOKS-TABLE --> end";
            "footer"]
           AUTOGENERATED_NOTEBOOKS_TABLE_TOKEN).
  by repeat constructor.
Defined.

(** * Record parsing *)

Lemma by_value_ok (v : string) (section : READMESection.t) :
  READMESection.by_value v = Ok section ↔ v = READMESection.value section.
Proof.
  unfold READMESection.by_value.
  destruct (String.eqb_spec v (READMESection.value READMESection.MODELS))
    as [-> | Hmodels];
    [|destruct (String.eqb_spec v (READMESection.value READMESection.APPLIED))
        as [-> | Happlied]].
  - by destruct section.
  - by destruct section.
  - split; [done|]. by destruct section.
Qed.

Lemma by_value_raises (v : string) (e : exn) :
  READMESection.by_value v = Raise e → e = EnumValueError "READMESection" v.
Proof.
  unfold READMESection.by_value. repeat case_match; congruence.
Qed.

(** A line of seven fields reaches the section lookup. *)
Lemma from_csv_line_seven csv_line f0 f1 f2 f3 f4 f5 f6 :
  split "," csv_line = [f0; f1; f2; f3; f4; f5; f6] →
  TableEntry.from_csv_line csv_line
  = section ← READMESection.by_value (strip f6);
    Ok {| TableEntry.display_name := strip f0;
          TableEntry.notebook_name := strip f1;
          TableEntry.roboflow_blogpost_path := Some (strip f2);
          TableEntry.youtube_video_path := Some (strip f3);
          TableEntry.github_repository_path := Some (strip f4);
          TableEntry.arxiv_index := Some (strip f5);
          TableEntry.readme_section := section |}.
Proof.
  intros Hsplit. unfold TableEntry.from_csv_line. rewrite Hsplit.
  by rewrite decide_False by (simpl; lia).
Qed.

Lemma from_csv_line_other_count csv_line :
  length (split "," csv_line) ≠ 7 →
  TableEntry.from_csv_line csv_line
  = Raise (Exception "Every csv line must contain 7 fields").
Proof.
  intros Hcount. unfold TableEntry.from_csv_line.
  by rewrite decide_True by (by rewrite length_fmap).
Qed.

Lemma length_seven {A} (xs : list A) :
  length xs = 7 → ∃ x0 x1 x2 x3 x4 x5 x6, xs = [x0; x1; x2; x3; x4; x5; x6].
Proof.
  destruct xs as [|x0 [|x1 [|x2 [|x3 [|x4 [|x5 [|x6 [|]]]]]]]]; try done.
  intros _. by eexists _, _, _, _, _, _, _.
Qed.

(** C4.  Parsing a line raises the error that states the required field
    count exactly when splitting the line on the comma does not give seven
    fields.  It returns an entry exactly when there are seven fields and the
    trimmed seventh is the value of a section; the entry then holds the
    trimmed fields in the order display name, notebook name, blog path,
    video path, repository path, arXiv index, section. *)
Theorem from_csv_line_field_count_and_order (csv_line : string) :
  (TableEntry.from_csv_line csv_line
   = Raise (Exception "Every csv line must contain 7 fields")
   ↔ length (split "," csv_line) ≠ 7) ∧
  (∀ entry,
     TableEntry.from_csv_line csv_line = Ok entry ↔
     ∃ f0 f1 f2 f3 f4 f5 f6 section,
       split "," csv_line = [f0; f1; f2; f3; f4; f5; f6] ∧
       strip f6 = READMESection.value section ∧
       entry = {| TableEntry.display_name := strip f0;
                  TableEntry.notebook_name := strip f1;
                  TableEntry.roboflow_blogpost_path := Some (strip f2);
                  TableEntry.youtube_video_path := Some (strip f3);
                  TableEntry.github_repository_path := Some (strip f4);
                  TableEntry.arxiv_index := Some (strip f5);
                  TableEntry.readme_section := section |}).
Proof.
  destruct (decide (length (split "," csv_line) = 7)) as [Hseven | Hother].
  - destruct (length_seven _ Hseven)
      as (f0 & f1 & f2 & f3 & f4 & f5 & f6 & Hsplit).
    rewrite (from_csv_line_seven _ _ _ _ _ _ _ _ Hsplit). split.
    + split; [|done].
      destruct (READMESection.by_value (strip f6)) as [section|e] eqn:Hlookup;
        [done|].
      apply by_value_raises in Hlookup as ->. done.
    + intros entry. split.
      * destruct (READMESection.by_value (strip f6)) as [section|e] eqn:Hlookup;
          [|done].
        intros [= <-]. apply by_value_ok in Hlookup.
        by exists f0, f1, f2, f3, f4, f5, f6, section.
      * intros (g0 & g1 & g2 & g3 & g4 & g5 & g6 & section & Hg & Htag & ->).
        rewrite Hsplit in Hg. injection Hg as <- <- <- <- <- <- <-.
        apply by_value_ok in Htag. by rewrite Htag.
  - rewrite (from_csv_line_other_count _ Hother). split; [done|].
    intros entry. split; [done|].
    intros (f0 & f1 & f2 & f3 & f4 & f5 & f6 & section & Hsplit & _).
    by rewrite Hsplit in Hother.
Qed.

(** C3.  The section tag is looked up as it stands, without case folding:
    a seven-field line whose tag is [MODELS] or [Applied] is rejected by the
    enumeration lookup, with an error that carries the offending value
    alone, although [READMESection.from_value] accepts both tags. *)
Theorem from_csv_line_section_tag_not_case_folded :
  TableEntry.from_csv_line "a,b,c,d,e,f,MODELS"
  = Raise (EnumValueError "READMESection" "MODELS") ∧
  TableEntry.from_csv_line "a,b,c,d,e,f,Applied"
  = Raise (EnumValueError "READMESection" "Applied") ∧
  READMESection.from_value "MODELS" = Ok READMESection.MODELS ∧
  READMESection.from_value "Applied" = Ok READMESection.APPLIED ∧
  READMESection.from_value "model"
  = Raise (Exception
      "READMESection must be one of ['models', 'applied'], model given.").
Proof. by repeat split. Qed.

(** * Row rendering *)

Lemma format_row (entry : TableEntry.t) :
  TableEntry.format entry = Ok (row_of entry).
Proof.
  destruct entry as [display notebook [[|? ?]|] [[|? ?]|] [[|? ?]|] [[|? ?]|] section];
    reflexivity.
Qed.

Lemma count_char_append c (s t : string) :
  count_char c (s +:+ t) = count_char c s + count_char c t.
Proof. induction s as [|c' s IH]; simpl; [done | rewrite IH; lia]. Qed.

Lemma split_length c (s : string) : length (split c s) = S (count_char c s).
Proof.
  induction s as [|c' s IH]; simpl; [done|].
  destruct (Ascii.eqb c' c); simpl; [by rewrite IH|].
  destruct (split c s); simpl in *; lia.
Qed.

Lemma pipe_delimited_cells_length (row : string) :
  length (pipe_delimited_cells row) = count_char "|" row - 1.
Proof.
  unfold pipe_delimited_cells.
  rewrite length_take, length_drop, split_length. lia.
Qed.

Lemma optional_badge_pipes (opening closing : string) (v : option string) :
  count_char "|" opening = 0 → count_char "|" closing = 0 →
  count_char "|"
    match v with
    | Some (String _ _ as text) => opening +:+ text +:+ closing
    | _ => EmptyString
    end
  = pipes_of v.
Proof.
  intros Hopening Hclosing. destruct v as [[|c text]|]; try done.
  rewrite !count_char_append, Hopening, Hclosing. unfold pipes_of. simpl. lia.
Qed.

Lemma row_pipes (entry : TableEntry.t) :
  count_char "|" (row_of entry)
  = 5 + count_char "|" (TableEntry.display_name entry)
    + 3 * count_char "|" (TableEntry.notebook_name entry)
    + pipes_of (TableEntry.roboflow_blogpost_path entry)
    + pipes_of (TableEntry.youtube_video_path entry)
    + pipes_of (TableEntry.github_repository_path entry)
    + 2 * pipes_of (TableEntry.arxiv_index entry).
Proof.
  unfold row_of, notebook_link, colab_badge, kaggle_badge.
  rewrite !count_char_append.
  unfold blog_badge, youtube_badge, github_badge.
  rewrite !optional_badge_pipes by done.
  assert (count_char "|" (arxiv_badge entry)
          = 2 * pipes_of (TableEntry.arxiv_index entry)) as ->.
  { unfold arxiv_badge, pipes_of.
    destruct (TableEntry.arxiv_index entry) as [[|c index]|]; try done.
    rewrite !count_char_append. simpl. lia. }
  simpl. lia.
Qed.

Lemma optional_badge_empty (opening closing : string) (v : option string) :
  opening ≠ EmptyString →
  match v with
  | Some (String _ _ as text) => opening +:+ text +:+ closing
  | _ => EmptyString
  end = EmptyString ↔ blank v.
Proof.
  intros Hopening. unfold blank. destruct v as [[|c text]|].
  - split; auto.
  - destruct opening; [done|]. simpl. split; [done | by intros [|]].
  - split; auto.
Qed.

(** C6, as the code has it.  Every entry renders to the row
    [| {link} | {colab_badge} {kaggle_badge} | {blog_badge} {youtube_badge} | {github_badge} {arxiv_badge}|];
    each of the blog, video, repository and arXiv badges is empty exactly
    when its field is blank, and the Colab and Kaggle badges never are.  The
    row has four pipe-delimited cells and one more for every pipe character
    in the substituted field texts, whichever optional fields are empty: so
    exactly four when no field contains a pipe. *)
Theorem format_row_shape_badges_and_cells (entry : TableEntry.t) :
  TableEntry.format entry
  = Ok ("| " +:+ notebook_link entry +:+ " | " +:+ colab_badge entry +:+ " "
        +:+ kaggle_badge entry +:+ " | " +:+ blog_badge entry +:+ " "
        +:+ youtube_badge entry +:+ " | " +:+ github_badge entry +:+ " "
        +:+ arxiv_badge entry +:+ "|") ∧
  (blog_badge entry = EmptyString
   ↔ blank (TableEntry.roboflow_blogpost_path entry)) ∧
  (youtube_badge entry = EmptyString
   ↔ blank (TableEntry.youtube_video_path entry)) ∧
  (github_badge entry = EmptyString
   ↔ blank (TableEntry.github_repository_path entry)) ∧
  (arxiv_badge entry = EmptyString ↔ blank (TableEntry.arxiv_index entry)) ∧
  colab_badge entry ≠ EmptyString ∧
  kaggle_badge entry ≠ EmptyString ∧
  length (pipe_delimited_cells (row_of entry))
  = 4 + count_char "|" (TableEntry.display_name entry)
    + 3 * count_char "|" (TableEntry.notebook_name entry)
    + pipes_of (TableEntry.roboflow_blogpost_path entry)
    + pipes_of (TableEntry.youtube_video_path entry)
    + pipes_of (TableEntry.github_repository_path entry)
    + 2 * pipes_of (TableEntry.arxiv_index entry).
Proof.
  split_and!.
  - apply format_row.
  - by apply optional_badge_empty.
  - by apply optional_badge_empty.
  - by apply optional_badge_empty.
  - unfold arxiv_badge, blank.
    destruct (TableEntry.arxiv_index entry) as [[|c index]|];
      split; auto; [done | by intros [|]].
  - done.
  - done.
  - rewrite pipe_delimited_cells_length, row_pipes. lia.
Qed.

(** C6, as stated, fails for a display name with a pipe in it: the line
    parses, and its row has five cells. *)
Lemma format_row_with_pipe_has_five_cells :
  ∃ entry row,
    TableEntry.from_csv_line "a|b,n.ipynb,,,,,models" = Ok entry ∧
    TableEntry.format entry = Ok row ∧
    row = "| [a|b](https://github.com/roboflow-ai/notebooks/blob/main/notebooks/n.ipynb) | [![Colab](https://colab.research.google.com/assets/colab-badge.svg)](https://colab.research.google.com/github/roboflow-ai/notebooks/blob/main/notebooks/n.ipynb) [![Kaggle](https://kaggle.com/static/images/open-in-kaggle.svg)](https://kaggle.com/kernels/welcome?src=https://github.com/roboflow-ai/notebooks/blob/main/notebooks/n.ipynb) |   |  |" ∧
    length (pipe_delimited_cells row) = 5.
Proof. eexists _, _. split_and!; reflexivity. Qed.

(** * The rendered table *)

Lemma mapM_format (entries : list TableEntry.t) :
  mapM TableEntry.format entries = Ok (row_of <$> entries).
Proof.
  induction entries as [|entry entries IH]; [done|].
  cbn [mapM]. by rewrite format_row, IH.
Qed.

Lemma render_table_lines_rows (table_entries : list TableEntry.t) :
  render_table_lines table_entries
  = Ok (WARNING_HEADER
        ++ ["## Model Experiments ("
            +:+ str (length (filter (λ entry, TableEntry.readme_section entry
                                              = READMESection.MODELS)
                                    table_entries))
            +:+ " notebooks)"]
        ++ TABLE_HEADER
        ++ (row_of <$> filter (λ entry, TableEntry.readme_section entry
                                        = READMESection.MODELS) table_entries)
        ++ ["## Applied computer vision in real world scenarios ("
            +:+ str (length (filter (λ entry, TableEntry.readme_section entry
                                              = READMESection.APPLIED)
                                    table_entries))
            +:+ " notebooks)"]
        ++ TABLE_HEADER
        ++ (row_of <$> filter (λ entry, TableEntry.readme_section entry
                                        = READMESection.APPLIED) table_entries)).
Proof.
  unfold render_table_lines. rewrite !mapM_format. cbn [mbind result_bind].
  by rewrite !length_fmap.
Qed.

(** C7.  The rendered lines are, in this order: the four lines of the
    warning banner, the header of the models section with the number of
    models entries, the two lines of the table header, one row for each
    models entry in input order, the header of the applied section with the
    number of applied entries, the table header again, and one row for each
    applied entry in input order. *)
Theorem render_table_lines_layout (table_entries : list TableEntry.t) :
  render_table_lines table_entries
  = Ok (["<!---";
         "   WARNING: DO NOT EDIT THIS TABLE MANUALLY. IT IS AUTOMATICALLY GENERATED.";
         "   HEAD OVER TO CONTRIBUTING.MD FOR MORE DETAILS ON HOW TO MAKE CHANGES PROPERLY.";
         "-->"]
        ++ ["## Model Experiments ("
            +:+ str (length (filter (λ entry, TableEntry.readme_section entry
                                              = READMESection.MODELS)
                                    table_entries))
            +:+ " notebooks)"]
        ++ TABLE_HEADER
        ++ (row_of <$> filter (λ entry, TableEntry.readme_section entry
                                        = READMESection.MODELS) table_entries)
        ++ ["## Applied computer vision in real world scenarios ("
            +:+ str (length (filter (λ entry, TableEntry.readme_section entry
                                              = READMESection.APPLIED)
                                    table_entries))
            +:+ " notebooks)"]
        ++ TABLE_HEADER
        ++ (row_of <$> filter (λ entry, TableEntry.readme_section entry
                                        = READMESection.APPLIED) table_entries))
  ∧ length TABLE_HEADER = 2
  ∧ filter (λ entry, TableEntry.readme_section entry = READMESection.MODELS)
           table_entries `sublist_of` table_entries
  ∧ filter (λ entry, TableEntry.readme_section entry = READMESection.APPLIED)
           table_entries `sublist_of` table_entries.
Proof.
  split_and!; [apply render_table_lines_rows | done | apply sublist_filter..].
Qed.

Example render_three_models_two_applied :
  (table_entries ← parse_csv_lines
     ["A,a.ipynb,,,,,models"; "B,b.ipynb,,,,,applied"; "C,c.ipynb,,,,,models";
      "D,d.ipynb,,,,,applied"; "E,e.ipynb,,,,,models"];
   table_lines ← render_table_lines table_entries;
   Ok (table_lines !! 4, table_lines !! 10, length table_lines))
  = Ok (Some "## Model Experiments (3 notebooks)",
        Some "## Applied computer vision in real world scenarios (2 notebooks)",
        15).
Proof. reflexivity. Qed.

(** * The main program *)

Lemma for_each_write (path written : string) (lines : list string)
    (fs : gmap string string) :
  for_each lines (λ line, write path (line +:+ String "010" EmptyString))
           (<[path := written]> fs)
  = (Ok (), <[path := written +:+ written_text lines]> fs).
Proof.
  revert written. induction lines as [|line lines IH]; intros written.
  - simpl. by rewrite append_nil_r.
  - cbn [for_each]. unfold mbind, io_bind, write at 1.
    rewrite alter_insert_eq, IH. by rewrite !append_assoc.
Qed.

(** Saving replaces the text of the file by the lines, one by one. *)
Lemma save_lines_to_file_writes (path : string) (lines : list string)
    (fs : gmap string string) :
  save_lines_to_file path lines fs
  = (Ok (), <[path := written_text lines]> fs).
Proof.
  unfold save_lines_to_file, open_for_writing, mbind, io_bind.
  by rewrite for_each_write.
Qed.

(** The run, step by step: the only write is the last step. *)
Lemma main_steps (args : Args) (fs : gmap string string) :
  main args fs
  = match fs !! data_path args with
    | None => (Raise (FileNotFoundError (data_path args)), fs)
    | Some data_text =>
    match fs !! readme_path args with
    | None => (Raise (FileNotFoundError (readme_path args)), fs)
    | Some readme_text =>
    match parse_csv_lines (drop 1 (rstrip <$> file_lines data_text)) with
    | Raise e => (Raise e, fs)
    | Ok table_entries =>
    match render_table_lines table_entries with
    | Raise e => (Raise e, fs)
    | Ok table_lines =>
    match inject_markdown_table_into_readme
            (rstrip <$> file_lines readme_text) table_lines with
    | Raise e => (Raise e, fs)
    | Ok readme_lines => save_lines_to_file (readme_path args) readme_lines fs
    end end end end end.
Proof.
  unfold main, mbind, io_bind, read_lines_from_file, pure.
  destruct (fs !! data_path args) as [data_text|]; [|done].
  destruct (fs !! readme_path args) as [readme_text|]; [|done].
  destruct (parse_csv_lines _) as [table_entries|e]; [|done].
  destruct (render_table_lines _) as [table_lines|e]; [|done].
  by destruct (inject_markdown_table_into_readme _ _).
Qed.

Lemma render_table_lines_ok (table_entries : list TableEntry.t) :
  ∃ table_lines, render_table_lines table_entries = Ok table_lines.
Proof. eexists. apply render_table_lines_rows. Qed.

Lemma mapM_app {A B} (f : A → result B) (xs ys : list A) :
  mapM f (xs ++ ys)
  = (xs' ← mapM f xs; ys' ← mapM f ys; Ok (xs' ++ ys')).
Proof.
  induction xs as [|x xs IH]; simpl.
  - by destruct (mapM f ys).
  - destruct (f x) as [x'|e]; simpl; [|done].
    rewrite IH. destruct (mapM f xs) as [xs'|e]; simpl; [|done].
    by destruct (mapM f ys).
Qed.

(** The first malformed line stops the parse with the field-count error. *)
Lemma parse_csv_lines_malformed good bad rest entries :
  parse_csv_lines good = Ok entries →
  length (split "," bad) ≠ 7 →
  parse_csv_lines (good ++ bad :: rest)
  = Raise (Exception "Every csv line must contain 7 fields").
Proof.
  intros Hgood Hbad. unfold parse_csv_lines in *.
  rewrite mapM_app, Hgood. cbn [mbind result_bind mapM].
  by rewrite (from_csv_line_other_count _ Hbad).
Qed.

(** C8.  A run that fails leaves every file as it was.  Whatever the error,
    the files after the run are the files before it; a data line that does
    not split into seven fields and a document without exactly two sentinel
    lines both make the run fail, since the one write of the run is its last
    step; a run that gets that far does write the document. *)
Theorem main_failure_writes_nothing (args : Args) (fs : gmap string string) :
  (∀ e fs', main args fs = (Raise e, fs') → fs' = fs) ∧
  (∀ data_text readme_text good bad rest entries,
     fs !! data_path args = Some data_text →
     fs !! readme_path args = Some readme_text →
     drop 1 (rstrip <$> file_lines data_text) = good ++ bad :: rest →
     parse_csv_lines good = Ok entries →
     length (split "," bad) ≠ 7 →
     main args fs
     = (Raise (Exception "Every csv line must contain 7 fields"), fs)) ∧
  (∀ data_text readme_text entries,
     fs !! data_path args = Some data_text →
     fs !! readme_path args = Some readme_text →
     parse_csv_lines (drop 1 (rstrip <$> file_lines data_text)) = Ok entries →
     marker_count (rstrip <$> file_lines readme_text) ≠ 2 →
     ∃ msg, main args fs = (Raise (Exception msg), fs)
            ∧ substring_of AUTOGENERATED_NOTEBOOKS_TABLE_TOKEN msg) ∧
  (∀ data_text readme_text entries,
     fs !! data_path args = Some data_text →
     fs !! readme_path args = Some readme_text →
     parse_csv_lines (drop 1 (rstrip <$> file_lines data_text)) = Ok entries →
     marker_count (rstrip <$> file_lines readme_text) = 2 →
     ∃ readme_lines,
       main args fs
       = (Ok (), <[readme_path args := written_text readme_lines]> fs)).
Proof.
  rewrite main_steps. split_and!.
  - intros e fs'. rewrite ?save_lines_to_file_writes.
    repeat case_match; try rewrite save_lines_to_file_writes;
      by intros [= _ <-].
  - intros data_text readme_text good bad rest entries -> -> -> Hgood Hbad.
    by rewrite (parse_csv_lines_malformed _ _ _ _ Hgood Hbad).
  - intros data_text readme_text entries -> -> -> Hcount.
    destruct (render_table_lines_ok entries) as [table_lines ->].
    rewrite (inject_raises _ _ Hcount).
    eexists. split; [done | apply marker_message_names_token].
  - intros data_text readme_text entries -> -> -> Hcount.
    destruct (render_table_lines_ok entries) as [table_lines ->].
    destruct (two_markers_split _ Hcount)
      as (before & first & between & second & after & -> & ? & ? & ? & ? & ?).
    rewrite inject_split by done. rewrite save_lines_to_file_writes.
    by eexists.
Qed.

Lemma main_failure_writes_nothing_witness :
  let args := {| data_path := "data.csv"; readme_path := "README.md" |} in
  let six_fields : gmap string string :=
    {[ "data.csv" := written_text ["name,notebook"; "a,b,c,d,e,f"];
       "README.md" := written_text ["# Notebooks"] ]} in
  let no_markers : gmap string string :=
    {[ "data.csv" := written_text ["name,notebook"; "a,b,c,d,e,f,models"];
       "README.md" := written_text ["# Notebooks"] ]} in
  main args six_fields
  = (Raise (Exception "Every csv line must contain 7 fields"), six_fields) ∧
  ∃ msg, main args no_markers = (Raise (Exception msg), no_markers)
         ∧ substring_of AUTOGENERATED_NOTEBOOKS_TABLE_TOKEN msg.
Proof.
  intros args six_fields no_markers. split.
  - apply (proj1 (proj2 (main_failure_writes_nothing args six_fields))
             (written_text ["name,notebook"; "a,b,c,d,e,f"])
             (written_text ["# Notebooks"]) [] "a,b,c,d,e,f" [] []);
      [reflexivity | reflexivity | reflexivity | reflexivity | by vm_compute].
  - eapply (proj1 (proj2 (proj2 (main_failure_writes_nothing args no_markers)))
              (written_text ["name,notebook"; "a,b,c,d,e,f,models"])
              (written_text ["# Notebooks"]));
      [reflexivity | reflexivity | reflexivity | by vm_compute].
Defined.

(** * Reading a display link back *)

Lemma strip_prefix_startswith (p s : string) :
  strip_prefix p s = None ↔ startswith p s = false.
Proof.
  revert s. induction p as [|a p IH]; intros [|b s]; simpl; try done.
  destruct (Ascii.eqb a b); simpl; [apply IH | done].
Qed.

Lemma strip_prefix_append (p s : string) : strip_prefix p (p +:+ s) = Some s.
Proof.
  induction p as [|a p IH]; simpl; [by destruct s|].
  by rewrite Ascii.eqb_refl.
Qed.

Lemma strip_last_append (c : ascii) (s : string) :
  strip_last c (s +:+ String c EmptyString) = Some s.
Proof.
  induction s as [|a s IH]; simpl; [by rewrite Ascii.eqb_refl|].
  rewrite IH. by destruct s.
Qed.

(** A match of [p] that runs into a character foreign to [p] ends before
    it. *)
Lemma startswith_before_foreign (p s rest : string) (h : ascii) :
  count_char h p = 0 →
  startswith p (s +:+ String h rest) = true → startswith p s = true.
Proof.
  revert s. induction p as [|a p IH]; intros s Hforeign; [done|].
  simpl in Hforeign. destruct (Ascii.eqb_spec a h) as [->|Hne]; [done|].
  destruct s as [|b s]; simpl.
  - rewrite andb_true_iff, Ascii.eqb_eq. by intros [? _].
  - rewrite !andb_true_iff. intros [? ?]. split; [done|]. by apply IH.
Qed.

Lemma split_at_first_step (sep s : string) :
  split_at_first sep s
  = match strip_prefix sep s with
    | Some after => Some (EmptyString, after)
    | None =>
        match s with
        | EmptyString => None
        | String c rest =>
            '(before, after) ← split_at_first sep rest;
            Some (String c before, after)
        end
    end.
Proof. by destruct s. Qed.

(** When the first character of the separator does not come back in it, the
    first occurrence of the separator after a text that does not contain it
    is the one that follows the text. *)
Lemma split_at_first_append (h : ascii) (tl before after : string) :
  count_char h tl = 0 →
  contains (String h tl) before = false →
  split_at_first (String h tl) (before +:+ String h tl +:+ after)
  = Some (before, after).
Proof.
  intros Hforeign. induction before as [|c before IH]; intros Hnone.
  - rewrite split_at_first_step.
    change (EmptyString +:+ String h tl +:+ after)
      with (String h tl +:+ after).
    by rewrite strip_prefix_append.
  - cbn [contains] in Hnone. apply orb_false_iff in Hnone as [Hhere Hlater].
    rewrite split_at_first_step.
    change (String c before +:+ String h tl +:+ after)
      with (String c (before +:+ String h tl +:+ after)).
    assert (strip_prefix (String h tl)
              (String c (before +:+ String h tl +:+ after)) = None) as ->.
    { apply strip_prefix_startswith, not_true_is_false. intros Hmatch.
      cbn [startswith] in Hmatch, Hhere.
      apply andb_true_iff in Hmatch as [Hc Hmatch].
      apply startswith_before_foreign in Hmatch; [|done].
      by rewrite Hc, Hmatch in Hhere. }
    by rewrite IH.
Qed.

Lemma reparse_notebook_link (entry : TableEntry.t) :
  contains LINK_SEPARATOR (TableEntry.display_name entry) = false →
  reparse_link (notebook_link entry)
  = Some (TableEntry.display_name entry, TableEntry.notebook_name entry).
Proof.
  intros Hnone. unfold reparse_link, notebook_link.
  cbn [String.append strip_prefix]. rewrite Ascii.eqb_refl. cbn [mbind option_bind].
  change (split_at_first LINK_SEPARATOR
            (TableEntry.display_name entry +:+ LINK_SEPARATOR
             +:+ TableEntry.notebook_name entry +:+ ")")
          ≫= (λ '(display, rest),
                strip_last ")" rest ≫= λ notebook, Some (display, notebook))
          = Some (TableEntry.display_name entry, TableEntry.notebook_name entry)).
  revert Hnone.
  change LINK_SEPARATOR with (String "]" (String "(" (NOTEBOOKS_ROOT_PATH +:+ "/"))).
  intros Hnone. rewrite split_at_first_append by done.
  cbn [mbind option_bind]. by rewrite strip_last_append.
Qed.

(** C9, as the code has it.  A line of seven fields with a valid section
    tag parses and renders to a row that opens with the display link; when
    the trimmed display name does not contain the text that separates the
    two names in a link, reading the link back at the first such separator
    gives the trimmed display name and the trimmed notebook name. *)
Theorem parse_format_reparse_link (csv_line f0 f1 f2 f3 f4 f5 f6 : string)
    (section : READMESection.t) :
  split "," csv_line = [f0; f1; f2; f3; f4; f5; f6] →
  strip f6 = READMESection.value section →
  ¬ substring_of ("](" +:+ NOTEBOOKS_ROOT_PATH +:+ "/") (strip f0) →
  ∃ entry rest,
    TableEntry.from_csv_line csv_line = Ok entry ∧
    TableEntry.format entry
    = Ok ("| " +:+ notebook_link entry +:+ " | " +:+ rest) ∧
    notebook_link entry
    = "[" +:+ strip f0 +:+ "](" +:+ NOTEBOOKS_ROOT_PATH +:+ "/" +:+ strip f1
      +:+ ")" ∧
    reparse_link (notebook_link entry) = Some (strip f0, strip f1).
Proof.
  intros Hsplit Htag%by_value_ok Hnone.
  eexists _, _. split_and!.
  - rewrite (from_csv_line_seven _ _ _ _ _ _ _ _ Hsplit), Htag. done.
  - rewrite format_row. done.
  - done.
  - apply (reparse_notebook_link (TableEntry.Build_t _ _ _ _ _ _ _)). simpl.
    apply not_true_is_false. by rewrite contains_spec.
Qed.

Lemma parse_format_reparse_link_witness :
  ∃ entry rest,
    TableEntry.from_csv_line
      " YOLOv8 [new], train-yolov8.ipynb ,,,, 2301.00001,models" = Ok entry ∧
    TableEntry.format entry
    = Ok ("| " +:+ notebook_link entry +:+ " | " +:+ rest) ∧
    notebook_link entry
    = "[" +:+ "YOLOv8 [new]" +:+ "](" +:+ NOTEBOOKS_ROOT_PATH +:+ "/"
      +:+ "train-yolov8.ipynb" +:+ ")" ∧
    reparse_link (notebook_link entry)
    = Some ("YOLOv8 [new]", "train-yolov8.ipynb").
Proof.
  apply (parse_format_reparse_link
           " YOLOv8 [new], train-yolov8.ipynb ,,,, 2301.00001,models"
           " YOLOv8 [new]" " train-yolov8.ipynb " EmptyString EmptyString
           EmptyString " 2301.00001" "models" READMESection.MODELS);
    [reflexivity | reflexivity |].
  rewrite <- contains_spec. by vm_compute.
Defined.

(** C9, as stated, fails: two valid lines with different display names
    render the same display link, so that no reading of the link gives back
    the names of both; the reading at the first separator gives back those
    of the second line. *)
Lemma display_link_of_two_lines_coincides :
  ∃ entry1 entry2 row1 row2,
    TableEntry.from_csv_line
      "a](https://github.com/roboflow-ai/notebooks/blob/main/notebooks/b,c,,,,,models"
    = Ok entry1 ∧
    TableEntry.from_csv_line
      "a,b](https://github.com/roboflow-ai/notebooks/blob/main/notebooks/c,,,,,models"
    = Ok entry2 ∧
    TableEntry.display_name entry1
    = "a](https://github.com/roboflow-ai/notebooks/blob/main/notebooks/b" ∧
    TableEntry.notebook_name entry1 = "c" ∧
    TableEntry.display_name entry2 = "a" ∧
    TableEntry.notebook_name entry2
    = "b](https://github.com/roboflow-ai/notebooks/blob/main/notebooks/c" ∧
    TableEntry.format entry1 = Ok row1 ∧
    TableEntry.format entry2 = Ok row2 ∧
    startswith
      "| [a](https://github.com/roboflow-ai/notebooks/blob/main/notebooks/b](https://github.com/roboflow-ai/notebooks/blob/main/notebooks/c) | "
      row1 = true ∧
    startswith
      "| [a](https://github.com/roboflow-ai/notebooks/blob/main/notebooks/b](https://github.com/roboflow-ai/notebooks/blob/main/notebooks/c) | "
      row2 = true ∧
    notebook_link entry1 = notebook_link entry2 ∧
    reparse_link (notebook_link entry1)
    = Some (TableEntry.display_name entry2, TableEntry.notebook_name entry2) ∧
    ∀ reparse : string → option (string * string),
      ¬ (reparse (notebook_link entry1)
         = Some (TableEntry.display_name entry1, TableEntry.notebook_name entry1)
         ∧ reparse (notebook_link entry2)
           = Some (TableEntry.display_name entry2, TableEntry.notebook_name entry2)).
Proof.
  eexists _, _, _, _. split_and!; try reflexivity.
  intros reparse [Hfirst Hsecond].
  change (notebook_link _) with
    "[a](https://github.com/roboflow-ai/notebooks/blob/main/notebooks/b](https://github.com/roboflow-ai/notebooks/blob/main/notebooks/c)"
    in Hfirst, Hsecond.
  rewrite Hfirst in Hsecond. discriminate Hsecond.
Qed.

(** * More on the string primitives *)

Section trimming.
Implicit Types (s t : string) (c : ascii).

Lemma rstrip_append_space s c :
  isspace c = true → rstrip (s +:+ String c EmptyString) = rstrip s.
Proof.
  intros Hspace. induction s as [|a s IH]; simpl; [by rewrite Hspace|].
  by rewrite IH.
Qed.

Lemma rstrip_append_other s c :
  isspace c = false →
  rstrip (s +:+ String c EmptyString) = s +:+ String c EmptyString.
Proof.
  intros Hother. induction s as [|a s IH]; simpl; [by rewrite Hother|].
  rewrite IH. by destruct s.
Qed.

Lemma rstrip_idemp s : rstrip (rstrip s) = rstrip s.
Proof.
  induction s as [|a s IH]; [done|]. simpl.
  destruct (rstrip s) as [|b kept] eqn:Hkept.
  - destruct (isspace a) eqn:Ha; simpl; [done | by rewrite Ha].
  - cbn [rstrip]. cbn [rstrip] in IH. by rewrite IH.
Qed.

Lemma lstrip_head s :
  match lstrip s with
  | EmptyString => True
  | String a _ => isspace a = false
  end.
Proof.
  induction s as [|a s IH]; simpl; [done|].
  by destruct (isspace a) eqn:Ha.
Qed.

Lemma rstrip_head a s :
  isspace a = false → ∃ kept, rstrip (String a s) = String a kept.
Proof.
  intros Ha. simpl. destruct (rstrip s); [rewrite Ha|]; eauto.
Qed.

Lemma strip_idemp s : strip (strip s) = strip s.
Proof.
  unfold strip. pose proof (lstrip_head s) as Hhead.
  destruct (lstrip s) as [|a t]; [done|].
  destruct (rstrip_head a t Hhead) as [kept Hkept].
  rewrite Hkept. cbn [lstrip]. rewrite Hhead, <- Hkept. apply rstrip_idemp.
Qed.

Lemma count_char_lstrip c s : count_char c (lstrip s) ≤ count_char c s.
Proof.
  induction s as [|a s IH]; simpl; [done|].
  destruct (isspace a); simpl; lia.
Qed.

Lemma count_char_rstrip c s : count_char c (rstrip s) ≤ count_char c s.
Proof.
  induction s as [|a s IH]; simpl; [done|].
  destruct (rstrip s) as [|b kept]; [destruct (isspace a)|]; simpl in *; lia.
Qed.

Lemma count_char_strip c s : count_char c (strip s) ≤ count_char c s.
Proof.
  unfold strip. etrans; [apply count_char_rstrip | apply count_char_lstrip].
Qed.

(** The pieces of a split hold no separator and no character that the text
    does not hold. *)
Lemma split_pieces sep c s :
  Forall (λ piece, count_char sep piece = 0
                   ∧ count_char c piece ≤ count_char c s) (split sep s).
Proof.
  induction s as [|a s IH]; simpl.
  - by repeat constructor.
  - destruct (Ascii.eqb a sep) eqn:Ha.
    + constructor; [simpl; split; [done|lia]|].
      eapply Forall_impl; [exact IH|]. simpl. intros piece [? ?]. split; [done|lia].
    + destruct (split sep s) as [|piece pieces]; simpl.
      * repeat constructor; simpl; [by rewrite Ha | lia].
      * apply Forall_cons in IH as [[Hsep Hc] Hrest]. constructor.
        -- simpl. rewrite Ha. split; [done|lia].
        -- eapply Forall_impl; [exact Hrest|]. simpl.
           intros ? [? ?]. split; [done|lia].
Qed.

(** A text that lacks the first character of a token lacks the token. *)
Lemma contains_needs_first h tl s :
  count_char h s = 0 → contains (String h tl) s = false.
Proof.
  induction s as [|a s IH]; [done|]. simpl.
  destruct (Ascii.eqb_spec a h) as [->|Hne]; [done|]. intros Hrest.
  destruct (Ascii.eqb_spec h a) as [->|_]; [done|]. simpl. by apply IH.
Qed.

End trimming.

(** * The section enumeration *)

Lemma lower_value (section : READMESection.t) :
  lower (READMESection.value section) = READMESection.value section.
Proof. by destruct section. Qed.

(** X1.  [from_value] accepts a tag exactly when its lower-cased text is the
    value of a section, and then returns that section; so it accepts every
    tag that the plain lookup accepts, and the value of every section.  Any
    other tag raises the exception whose message quotes the tag after the
    list of the valid values. *)
Theorem from_value_accepts_any_case (v : string) :
  (∀ section,
     READMESection.from_value v = Ok section
     ↔ lower v = READMESection.value section) ∧
  (∀ section,
     READMESection.by_value v = Ok section →
     READMESection.from_value v = Ok section) ∧
  (∀ section,
     READMESection.from_value (READMESection.value section) = Ok section) ∧
  ((∀ section, lower v ≠ READMESection.value section) →
   READMESection.from_value v
   = Raise (Exception ("READMESection must be one of ['models', 'applied'], "
                       +:+ v +:+ " given."))).
Proof.
  assert (∀ w section,
            READMESection.from_value w = Ok section
            ↔ lower w = READMESection.value section) as Hiff.
  { intros w section. rewrite <- by_value_ok. unfold READMESection.from_value.
    destruct (READMESection.by_value (lower w)); [|done].
    split; by intros [= ->]. }
  split_and!.
  - apply Hiff.
  - intros section ->%by_value_ok. apply Hiff, lower_value.
  - intros section. apply Hiff, lower_value.
  - intros Hnone. unfold READMESection.from_value.
    destruct (READMESection.by_value (lower v)) as [section|e] eqn:Hlookup;
      [|done].
    apply by_value_ok in Hlookup. by destruct (Hnone section).
Qed.

(** X2.  The plain lookup [READMESection(v)] inverts [value]: it returns the
    section of a value, two sections never share a value, and it succeeds
    exactly for the values that [READMESection.list()] lists; on any other
    text it raises the enumeration error carrying that text. *)
Theorem by_value_inverts_value (v : string) :
  (∀ section, READMESection.by_value (READMESection.value section) = Ok section) ∧
  (∀ section1 section2,
     READMESection.value section1 = READMESection.value section2 →
     section1 = section2) ∧
  ((∃ section, READMESection.by_value v = Ok section)
   ↔ v ∈ READMESection.list) ∧
  (v ∉ READMESection.list →
   READMESection.by_value v = Raise (EnumValueError "READMESection" v)).
Proof.
  assert ((∃ section, READMESection.by_value v = Ok section)
          ↔ v ∈ READMESection.list) as Hlist.
  { unfold READMESection.list. rewrite list_elem_of_fmap.
    split; intros [section Hsection]; exists section.
    - apply by_value_ok in Hsection. split; [done|].
      destruct section; set_solver.
    - apply by_value_ok. by destruct Hsection. }
  split_and!.
  - intros section. by apply by_value_ok.
  - by intros [] [].
  - done.
  - intros Hnot. destruct (READMESection.by_value v) as [section|e] eqn:Hlookup.
    + destruct Hnot. apply Hlist. eauto.
    + by apply by_value_raises in Hlookup as ->.
Qed.

(** * More on record parsing *)

(** a field as the parser stores it: trimmed and free of commas *)
Lemma stored_field (csv_line : string) (i : nat) (field : string) :
  split "," csv_line !! i = Some field →
  strip (strip field) = strip field ∧ count_char "," (strip field) = 0.
Proof.
  intros Hfield. split; [apply strip_idemp|].
  pose proof (split_pieces "," "," csv_line) as Hpieces.
  rewrite Forall_lookup in Hpieces. destruct (Hpieces _ _ Hfield) as [Hnone _].
  pose proof (count_char_strip "," field). lia.
Qed.

(** X3.  The field-count error is a matter of commas alone: a line raises it
    exactly when it does not hold six commas, so an empty line raises it and
    so does a line with a comma inside a field. *)
Theorem from_csv_line_needs_six_commas (csv_line : string) :
  TableEntry.from_csv_line csv_line
  = Raise (Exception "Every csv line must contain 7 fields")
  ↔ count_char "," csv_line ≠ 6.
Proof.
  destruct (decide (count_char "," csv_line = 6)) as [Hsix | Hother].
  - split; [|done].
    destruct (length_seven (split "," csv_line))
      as (f0 & f1 & f2 & f3 & f4 & f5 & f6 & Hsplit);
      [by rewrite split_length, Hsix|].
    rewrite (from_csv_line_seven _ _ _ _ _ _ _ _ Hsplit).
    destruct (READMESection.by_value (strip f6)) as [section|e] eqn:Hlookup;
      [done|].
    by apply by_value_raises in Hlookup as ->.
  - split; [done|]. intros _. apply from_csv_line_other_count.
    rewrite split_length. lia.
Qed.

(** X4.  Every field of a parsed entry is trimmed and holds no comma; the
    four optional fields are always present, empty when the line leaves
    them out. *)
Theorem from_csv_line_fields_trimmed (csv_line : string) (entry : TableEntry.t) :
  TableEntry.from_csv_line csv_line = Ok entry →
  ∃ blog video repository arxiv,
    TableEntry.roboflow_blogpost_path entry = Some blog ∧
    TableEntry.youtube_video_path entry = Some video ∧
    TableEntry.github_repository_path entry = Some repository ∧
    TableEntry.arxiv_index entry = Some arxiv ∧
    Forall (λ field, strip field = field ∧ count_char "," field = 0)
      [TableEntry.display_name entry; TableEntry.notebook_name entry;
       blog; video; repository; arxiv;
       READMESection.value (TableEntry.readme_section entry)].
Proof.
  intros Hparse.
  destruct (decide (length (split "," csv_line) = 7)) as [Hseven | Hother];
    [|by rewrite (from_csv_line_other_count _ Hother) in Hparse].
  destruct (length_seven _ Hseven) as (f0 & f1 & f2 & f3 & f4 & f5 & f6 & Hsplit).
  rewrite (from_csv_line_seven _ _ _ _ _ _ _ _ Hsplit) in Hparse.
  destruct (READMESection.by_value (strip f6)) as [section|e] eqn:Hlookup;
    [|done].
  apply by_value_ok in Hlookup. injection Hparse as <-. simpl.
  eexists _, _, _, _. split_and!; try done.
  rewrite <- Hlookup.
  repeat constructor.
  all: first [ apply strip_idemp
             | eapply (stored_field csv_line); rewrite Hsplit;
               first [exact (eq_refl : [f0; f1; f2; f3; f4; f5; f6] !! 0 = Some f0)
                     |exact (eq_refl : [f0; f1; f2; f3; f4; f5; f6] !! 1 = Some f1)
                     |exact (eq_refl : [f0; f1; f2; f3; f4; f5; f6] !! 2 = Some f2)
                     |exact (eq_refl : [f0; f1; f2; f3; f4; f5; f6] !! 3 = Some f3)
                     |exact (eq_refl : [f0; f1; f2; f3; f4; f5; f6] !! 4 = Some f4)
                     |exact (eq_refl : [f0; f1; f2; f3; f4; f5; f6] !! 5 = Some f5)
                     |exact (eq_refl : [f0; f1; f2; f3; f4; f5; f6] !! 6 = Some f6)] ].
Qed.

Lemma from_csv_line_fields_trimmed_witness :
  let entry :=
    {| TableEntry.display_name := "YOLOv8";
       TableEntry.notebook_name := "train.ipynb";
       TableEntry.roboflow_blogpost_path := Some "blog";
       TableEntry.youtube_video_path := Some EmptyString;
       TableEntry.github_repository_path := Some EmptyString;
       TableEntry.arxiv_index := Some "2301";
       TableEntry.readme_section := READMESection.APPLIED |} in
  TableEntry.from_csv_line "  YOLOv8 ,train.ipynb , blog,,  , 2301 ,applied "
  = Ok entry ∧
  ∃ blog video repository arxiv,
    TableEntry.roboflow_blogpost_path entry = Some blog ∧
    TableEntry.youtube_video_path entry = Some video ∧
    TableEntry.github_repository_path entry = Some repository ∧
    TableEntry.arxiv_index entry = Some arxiv ∧
    Forall (λ field, strip field = field ∧ count_char "," field = 0)
      [TableEntry.display_name entry; TableEntry.notebook_name entry;
       blog; video; repository; arxiv;
       READMESection.value (TableEntry.readme_section entry)].
Proof.
  intros entry. split; [reflexivity|].
  apply (from_csv_line_fields_trimmed
           "  YOLOv8 ,train.ipynb , blog,,  , 2301 ,applied " entry).
  reflexivity.
Defined.

Lemma mapM_Ok {A B} (f : A → result B) (xs : list A) (ys : list B) :
  mapM f xs = Ok ys ↔ Forall2 (λ x y, f x = Ok y) xs ys.
Proof.
  revert ys. induction xs as [|x xs IH]; intros ys; cbn [mapM].
  - split; [intros [= <-]; constructor | by intros ->%Forall2_nil_inv_l].
  - split.
    + destruct (f x) as [y|e] eqn:Hx; simpl; [|done].
      destruct (mapM f xs) as [ys'|e] eqn:Hxs; simpl; [|done].
      intros [= <-]. constructor; [done|]. by apply IH.
    + intros (y & ys' & Hx & Hxs & ->)%Forall2_cons_inv_l.
      apply IH in Hxs. by rewrite Hx, Hxs.
Qed.

Lemma mapM_first_error {A B} (f : A → result B) (good : list A) (bad : A)
    (rest : list A) (ys : list B) (e : exn) :
  mapM f good = Ok ys → f bad = Raise e →
  mapM f (good ++ bad :: rest) = Raise e.
Proof.
  intros Hgood Hbad. rewrite mapM_app, Hgood. cbn [mbind result_bind mapM].
  by rewrite Hbad.
Qed.

Lemma mapM_outcome {A B} (f : A → result B) (xs : list A) :
  (∃ ys, mapM f xs = Ok ys) ∨
  (∃ good bad rest ys e,
     xs = good ++ bad :: rest ∧ mapM f good = Ok ys ∧ f bad = Raise e).
Proof.
  induction xs as [|x xs IH]; [left; by exists []|].
  destruct (f x) as [y|e] eqn:Hx.
  - destruct IH as [[ys Hys] | (good & bad & rest & ys & e & -> & Hgood & Hbad)].
    + left. exists (y :: ys). cbn [mapM]. by rewrite Hx, Hys.
    + right. exists (x :: good), bad, rest, (y :: ys), e.
      split_and!; [done| |done]. cbn [mapM]. by rewrite Hx, Hgood.
  - right. by exists [], x, xs, [], e.
Qed.

(** X5.  Parsing the lines returns the entries of the lines, one for each
    line and in their order, when every line parses; otherwise it raises the
    error of the first line that does not parse, whatever follows that
    line. *)
Theorem parse_csv_lines_all_or_first_error (csv_lines : list string) :
  (∀ entries,
     parse_csv_lines csv_lines = Ok entries
     ↔ Forall2 (λ csv_line entry, TableEntry.from_csv_line csv_line = Ok entry)
               csv_lines entries) ∧
  (∀ entries,
     parse_csv_lines csv_lines = Ok entries → length entries = length csv_lines) ∧
  (∀ e,
     parse_csv_lines csv_lines = Raise e
     ↔ ∃ good bad rest entries,
         csv_lines = good ++ bad :: rest ∧
         parse_csv_lines good = Ok entries ∧
         TableEntry.from_csv_line bad = Raise e).
Proof.
  unfold parse_csv_lines. split_and!.
  - intros entries. apply mapM_Ok.
  - intros entries Hall%mapM_Ok. symmetry. by eapply Forall2_length.
  - intros e. split.
    + intros Hraise.
      destruct (mapM_outcome TableEntry.from_csv_line csv_lines)
        as [[entries Hok] | (good & bad & rest & entries & e' & -> & Hgood & Hbad)];
        [congruence|].
      rewrite (mapM_first_error _ _ _ _ _ _ Hgood Hbad) in Hraise.
      injection Hraise as ->. by exists good, bad, rest, entries.
    + intros (good & bad & rest & entries & -> & Hgood & Hbad).
      by eapply mapM_first_error.
Qed.

(** * More on marker search and splicing *)

Lemma indexes_from_shift (token : string) (k start : nat) (lines : list string) :
  indexes_from token (k + start) lines
  = (λ i, k + i) <$> indexes_from token start lines.
Proof.
  revert start. induction lines as [|line lines IH]; intros start; [done|].
  simpl. rewrite <- Nat.add_succ_r, IH. by destruct (contains token line).
Qed.

Lemma indexes_from_all (start : nat) (lines : list string) :
  indexes_from EmptyString start lines = seq start (length lines).
Proof.
  revert start. induction lines as [|line lines IH]; intros start; [done|].
  simpl. rewrite IH. by destruct line.
Qed.

(** X6.  The search of a document made of two parts is the search of the
    first part followed by the search of the second part, shifted by the
    length of the first.  Every index it returns is an index of the
    document, and the empty token is found in every line. *)
Theorem search_lines_with_token_app (lines1 lines2 : list string) (token : string) :
  search_lines_with_token (lines1 ++ lines2) token
  = search_lines_with_token lines1 token
    ++ ((λ i, length lines1 + i) <$> search_lines_with_token lines2 token) ∧
  Forall (λ i, i < length lines1) (search_lines_with_token lines1 token) ∧
  search_lines_with_token lines1 EmptyString = seq 0 (length lines1).
Proof.
  rewrite !search_indexes. split_and!.
  - rewrite indexes_from_app, <- indexes_from_shift. do 2 f_equal. lia.
  - apply Forall_forall. intros i (j & line & -> & Hj & _)%indexes_from_elem.
    apply lookup_lt_Some in Hj. lia.
  - apply indexes_from_all.
Qed.

(** X7.  What the splice returns does not depend on the lines that stood
    between the two markers.  Putting those very lines back returns the
    document as it was, and in general the result has the lines before and
    after the region, the two markers and the table lines, no more and no
    less. *)
Theorem inject_forgets_old_region
    (before between between' after table_lines : list string)
    (first second : string) :
  has_token first = true → has_token second = true →
  Forall (λ line, has_token line = false) (before ++ between ++ between' ++ after) →
  inject_markdown_table_into_readme
    (before ++ first :: between ++ second :: after) table_lines
  = inject_markdown_table_into_readme
      (before ++ first :: between' ++ second :: after) table_lines ∧
  inject_markdown_table_into_readme
    (before ++ first :: between ++ second :: after) between
  = Ok (before ++ first :: between ++ second :: after) ∧
  ∃ spliced,
    inject_markdown_table_into_readme
      (before ++ first :: between ++ second :: after) table_lines = Ok spliced ∧
    length spliced = length before + length after + 2 + length table_lines.
Proof.
  intros Hfirst Hsecond Hnone. rewrite !Forall_app in Hnone.
  destruct Hnone as (Hbefore & Hbetween & Hbetween' & Hafter).
  rewrite !inject_split by done. split_and!.
  - done.
  - f_equal. by rewrite <- app_assoc.
  - eexists. split; [done|]. rewrite !length_app. simpl. lia.
Qed.

Lemma inject_forgets_old_region_witness :
  let token := "<!--- AUTOGENERATED-NOTEBOOKS-TABLE -->" in
  has_token token = true ∧ has_token ("end " +:+ token) = true ∧
  Forall (λ line, has_token line = false)
    (["# Notebooks"] ++ ["old 1"; "old 2"] ++ ["other"] ++ ["footer"]) ∧
  inject_markdown_table_into_readme
    (["# Notebooks"] ++ token :: ["old 1"; "old 2"] ++ ("end " +:+ token) :: ["footer"])
    ["new"]
  = inject_markdown_table_into_readme
      (["# Notebooks"] ++ token :: ["other"] ++ ("end " +:+ token) :: ["footer"])
      ["new"] ∧
  inject_markdown_table_into_readme
    (["# Notebooks"] ++ token :: ["old 1"; "old 2"] ++ ("end " +:+ token) :: ["footer"])
    ["old 1"; "old 2"]
  = Ok (["# Notebooks"] ++ token :: ["old 1"; "old 2"] ++ ("end " +:+ token) :: ["footer"]) ∧
  ∃ spliced,
    inject_markdown_table_into_readme
      (["# Notebooks"] ++ token :: ["old 1"; "old 2"] ++ ("end " +:+ token) :: ["footer"])
      ["new"] = Ok spliced ∧
    length spliced = length ["# Notebooks"] + length ["footer"] + 2 + length ["new"].
Proof.
  intros token.
  split; [reflexivity|]. split; [reflexivity|]. split; [by repeat constructor|].
  apply (inject_forgets_old_region ["# Notebooks"] ["old 1"; "old 2"] ["other"]
           ["footer"] ["new"] token ("end " +:+ token));
    [reflexivity | reflexivity | by repeat constructor].
Defined.

(** * More on the rendered table *)

Lemma filter_sections_length (entries : list TableEntry.t) :
  length (filter (λ entry, TableEntry.readme_section entry = READMESection.MODELS)
                 entries)
  + length (filter (λ entry, TableEntry.readme_section entry = READMESection.APPLIED)
                   entries)
  = length entries.
Proof.
  induction entries as [|entry entries IH]; [done|].
  rewrite !filter_cons.
  destruct (TableEntry.readme_section entry); simpl; lia.
Qed.

(** X8.  Rendering never fails and loses no entry: the table has one line
    for each entry beside its ten fixed lines, and the row of every entry is
    among them. *)
Theorem render_table_lines_keeps_every_entry (table_entries : list TableEntry.t) :
  ∃ table_lines,
    render_table_lines table_entries = Ok table_lines ∧
    length table_lines = length table_entries + 10 ∧
    ∀ entry, entry ∈ table_entries → row_of entry ∈ table_lines.
Proof.
  eexists. split; [apply render_table_lines_rows|]. split.
  - rewrite !length_app, !length_fmap. simpl.
    pose proof (filter_sections_length table_entries). lia.
  - intros entry Hentry. rewrite !elem_of_app, !list_elem_of_fmap.
    destruct (TableEntry.readme_section entry) eqn:Hsection.
    + do 3 right. left. exists entry. split; [done|].
      by apply list_elem_of_filter.
    + do 6 right. exists entry. split; [done|].
      by apply list_elem_of_filter.
Qed.

Lemma str_has_digits_only (c : ascii) (n : nat) :
  count_char c "0123456789" = 0 → count_char c (str n) = 0.
Proof.
  intros Hdigits. unfold str. generalize (Nat.to_uint n) as d.
  induction d as [|d IH|d IH|d IH|d IH|d IH|d IH|d IH|d IH|d IH|d IH];
    [done|..]; cbn [NilEmpty.string_of_uint count_char]; rewrite IH;
    match goal with
    | |- context [Ascii.eqb ?digit c] =>
        destruct (Ascii.eqb_spec digit c) as [<-|]; [done|done]
    end.
Qed.

Lemma rstrip_append_kept (s t : string) :
  t ≠ EmptyString → rstrip t = t → rstrip (s +:+ t) = s +:+ t.
Proof.
  intros Hne Hkept. induction s as [|a s IH]; [done|].
  simpl. rewrite IH. destruct s; [by destruct t | done].
Qed.

Lemma rstrip_row (entry : TableEntry.t) : rstrip (row_of entry) = row_of entry.
Proof.
  unfold row_of. rewrite <- !append_assoc. by apply rstrip_append_other.
Qed.

Lemma optional_badge_count (c : ascii) (opening closing : string)
    (v : option string) :
  count_char c opening = 0 → count_char c closing = 0 →
  count_char c
    match v with
    | Some (String _ _ as text) => opening +:+ text +:+ closing
    | _ => EmptyString
    end
  = occurrences c v.
Proof.
  intros Hopening Hclosing. destruct v as [[|a text]|]; try done.
  rewrite !count_char_append, Hopening, Hclosing. unfold occurrences. simpl. lia.
Qed.

Lemma arxiv_badge_count (c : ascii) (entry : TableEntry.t) :
  count_char c "[![arXiv](https://img.shields.io/badge/arXiv-" = 0 →
  count_char c "-b31b1b.svg)](https://arxiv.org/abs/" = 0 →
  count_char c ")" = 0 →
  count_char c (arxiv_badge entry)
  = 2 * occurrences c (TableEntry.arxiv_index entry).
Proof.
  intros Hopening Hmiddle Hclosing. unfold arxiv_badge, occurrences.
  destruct (TableEntry.arxiv_index entry) as [[|a index]|]; try done.
  rewrite !count_char_append, Hopening, Hmiddle, Hclosing. simpl. lia.
Qed.

Lemma row_of_no_newline (entry : TableEntry.t) :
  entry_free "010" entry → count_char "010" (row_of entry) = 0.
Proof.
  intros (? & ? & ? & ? & ? & ?).
  unfold row_of, notebook_link, colab_badge, kaggle_badge.
  rewrite !count_char_append.
  unfold blog_badge, youtube_badge, github_badge.
  rewrite !optional_badge_count, arxiv_badge_count by done.
  simpl. lia.
Qed.

Lemma row_of_no_angle (entry : TableEntry.t) :
  entry_free "<" entry → count_char "<" (row_of entry) = 0.
Proof.
  intros (? & ? & ? & ? & ? & ?).
  unfold row_of, notebook_link, colab_badge, kaggle_badge.
  rewrite !count_char_append.
  unfold blog_badge, youtube_badge, github_badge.
  rewrite !optional_badge_count, arxiv_badge_count by done.
  simpl. lia.
Qed.

Lemma Ok_inj {A} (x y : A) : Ok x = Ok y → x = y.
Proof. by intros [=]. Qed.

(** A property of the fixed lines, of the two section headers for every
    count and of the row of every entry holds of every rendered line. *)
Lemma rendered_lines_Forall (P : string → Prop) (table_entries : list TableEntry.t)
    (table_lines : list string) :
  Forall P WARNING_HEADER → Forall P TABLE_HEADER →
  (∀ n, P ("## Model Experiments (" +:+ str n +:+ " notebooks)")) →
  (∀ n, P ("## Applied computer vision in real world scenarios ("
           +:+ str n +:+ " notebooks)")) →
  Forall (λ entry, P (row_of entry)) table_entries →
  render_table_lines table_entries = Ok table_lines →
  Forall P table_lines.
Proof.
  intros Hwarning Hheader Hmodels Happlied Hrows.
  rewrite render_table_lines_rows. intros Hrender.
  apply Ok_inj in Hrender as <-.
  assert (∀ Q `{!∀ entry, Decision (Q entry)},
            Forall P (row_of <$> filter Q table_entries)) as Hfiltered.
  { intros Q ?. apply Forall_fmap, Forall_forall.
    intros entry [_ Hentry]%list_elem_of_filter.
    rewrite Forall_forall in Hrows. by apply Hrows. }
  rewrite !Forall_app. split_and!; auto; by repeat constructor.
Qed.

Lemma header_clean (opening : string) (n : nat) :
  count_char "010" opening = 0 →
  clean_line (opening +:+ str n +:+ " notebooks)").
Proof.
  intros Hopening. split.
  - rewrite !count_char_append, Hopening.
    by rewrite str_has_digits_only.
  - apply rstrip_append_kept; [by destruct (str n)|].
    by apply rstrip_append_kept.
Qed.

Lemma rendered_lines_clean (table_entries : list TableEntry.t)
    (table_lines : list string) :
  render_table_lines table_entries = Ok table_lines →
  Forall (λ line, rstrip line = line) table_lines ∧
  (Forall (entry_free "010") table_entries → Forall clean_line table_lines).
Proof.
  intros Hrender. split; [|intros Hfree];
    (eapply rendered_lines_Forall; [| | | | |exact Hrender]).
  - by repeat constructor.
  - by repeat constructor.
  - intros n. by apply header_clean.
  - intros n. by apply header_clean.
  - apply Forall_forall. intros entry _. apply rstrip_row.
  - by repeat constructor.
  - by repeat constructor.
  - intros n. by apply header_clean.
  - intros n. by apply header_clean.
  - eapply Forall_impl; [exact Hfree|]. intros entry Hentry.
    split; [by apply row_of_no_newline | apply rstrip_row].
Qed.

Lemma rendered_lines_without_token (table_entries : list TableEntry.t)
    (table_lines : list string) :
  Forall (entry_free "<") table_entries →
  render_table_lines table_entries = Ok table_lines →
  Forall (λ line, has_token line = false) table_lines.
Proof.
  intros Hfree Hrender.
  assert (∀ line, count_char "<" line = 0 → has_token line = false) as Hangle.
  { intros line. apply (contains_needs_first "<"). }
  eapply rendered_lines_Forall; [| | | | |exact Hrender].
  - by repeat constructor.
  - by repeat constructor.
  - intros n. apply Hangle. rewrite !count_char_append.
    by rewrite str_has_digits_only.
  - intros n. apply Hangle. rewrite !count_char_append.
    by rewrite str_has_digits_only.
  - eapply Forall_impl; [exact Hfree|]. intros entry Hentry.
    by apply Hangle, row_of_no_angle.
Qed.

(** The fields of a parsed entry hold no character that the line lacks. *)
Lemma parsed_entry_free (c : ascii) (csv_line : string) (entry : TableEntry.t) :
  TableEntry.from_csv_line csv_line = Ok entry →
  count_char c csv_line = 0 → entry_free c entry.
Proof.
  intros Hparse Hline.
  destruct (decide (length (split "," csv_line) = 7)) as [Hseven | Hother];
    [|by rewrite (from_csv_line_other_count _ Hother) in Hparse].
  destruct (length_seven _ Hseven) as (f0 & f1 & f2 & f3 & f4 & f5 & f6 & Hsplit).
  rewrite (from_csv_line_seven _ _ _ _ _ _ _ _ Hsplit) in Hparse.
  destruct (READMESection.by_value (strip f6)) as [section|e]; [|done].
  injection Hparse as <-.
  pose proof (split_pieces "," c csv_line) as Hpieces. rewrite Hsplit in Hpieces.
  assert (∀ field, count_char c field ≤ count_char c csv_line →
                   count_char c (strip field) = 0) as Hfield.
  { intros field ?. pose proof (count_char_strip c field). lia. }
  repeat match goal with
         | H : Forall _ (_ :: _) |- _ => apply Forall_cons in H as [[_ ?] H]
         end.
  unfold entry_free, occurrences. simpl. split_and!; by apply Hfield.
Qed.

Lemma parsed_entries_free (c : ascii) (csv_lines : list string)
    (entries : list TableEntry.t) :
  parse_csv_lines csv_lines = Ok entries →
  Forall (λ line, count_char c line = 0) csv_lines →
  Forall (entry_free c) entries.
Proof.
  intros Hparse%mapM_Ok. induction Hparse as [|line entry lines entries Hline _ IH];
    [constructor|].
  intros [Hfree Hrest]%Forall_cons. constructor; [|by apply IH].
  by eapply parsed_entry_free.
Qed.



(** X10.  The sentinel token comes into the table through the fields alone:
    when no field of the entries holds the character [<], with which the
    token begins, no rendered line contains the token; this is so whenever
    the parsed lines hold no [<]. *)
Theorem render_table_lines_without_token (csv_lines : list string)
    (table_entries : list TableEntry.t) (table_lines : list string) :
  render_table_lines table_entries = Ok table_lines →
  (Forall (entry_free "<") table_entries →
   Forall (λ line, has_token line = false) table_lines) ∧
  (parse_csv_lines csv_lines = Ok table_entries →
   Forall (λ line, count_char "<" line = 0) csv_lines →
   Forall (λ line, has_token line = false) table_lines).
Proof.
  intros Hrender. split.
  - intros Hfree. by eapply rendered_lines_without_token.
  - intros Hparse Hlines. eapply rendered_lines_without_token; [|done].
    by eapply parsed_entries_free.
Qed.

Lemma render_table_lines_without_token_witness :
  ∃ table_entries table_lines,
    parse_csv_lines ["A,a.ipynb,,,,,models"; "B,b.ipynb,,,,,applied"]
    = Ok table_entries ∧
    render_table_lines table_entries = Ok table_lines ∧
    Forall (λ line, has_token line = false) table_lines.
Proof.
  eexists _, _. split; [reflexivity|]. split; [apply render_table_lines_rows|].
  eapply (proj2 (render_table_lines_without_token
                   ["A,a.ipynb,,,,,models"; "B,b.ipynb,,,,,applied"] _ _
                   (render_table_lines_rows _)));
    [reflexivity | by repeat constructor].
Defined.

(** * Reading and writing the files *)

Section files.
Implicit Types (text line : string) (lines : list string) (c : ascii).

Lemma file_lines_line line text :
  count_char "010" line = 0 →
  file_lines (line +:+ String "010" text)
  = (line +:+ String "010" EmptyString) :: file_lines text.
Proof.
  induction line as [|a line IH]; [done|]. simpl.
  destruct (Ascii.eqb a "010"); [done|]. intros Hline. by rewrite IH.
Qed.

Lemma file_lines_written_text lines :
  Forall (λ line, count_char "010" line = 0) lines →
  file_lines (written_text lines)
  = (λ line, line +:+ String "010" EmptyString) <$> lines.
Proof.
  induction 1 as [|line lines Hline _ IH]; [done|].
  cbn [written_text foldr fmap list_fmap].
  rewrite file_lines_line by done. f_equal. apply IH.
Qed.

Lemma read_written_text lines :
  Forall (λ line, count_char "010" line = 0) lines →
  rstrip <$> file_lines (written_text lines) = rstrip <$> lines.
Proof.
  intros Hlines. rewrite file_lines_written_text by done.
  rewrite <- list_fmap_compose. apply list_fmap_ext.
  intros _ line _. simpl. by apply rstrip_append_space.
Qed.

Lemma read_written_clean lines :
  Forall clean_line lines → rstrip <$> file_lines (written_text lines) = lines.
Proof.
  intros Hclean. rewrite read_written_text.
  - rewrite <- (list_fmap_id lines) at 2. apply Forall_fmap_ext.
    eapply Forall_impl; [exact Hclean|]. by intros line [_ ?].
  - eapply Forall_impl; [exact Hclean|]. by intros line [? _].
Qed.

(** A line of a text ends at its first newline and holds no other. *)
Lemma file_lines_pieces c text :
  Forall (λ line, count_char c line ≤ count_char c text ∧
                  ∃ body, count_char "010" body = 0 ∧
                          (line = body ∨ line = body +:+ String "010" EmptyString))
    (file_lines text).
Proof.
  induction text as [|a text IH]; [constructor|]. simpl.
  destruct (Ascii.eqb a "010") eqn:Ha.
  - constructor.
    + split; [simpl; lia|]. exists EmptyString. split; [done|].
      right. simpl. by apply Ascii.eqb_eq in Ha as ->.
    + eapply Forall_impl; [exact IH|]. simpl. intros line [? ?]. split; [lia|done].
  - destruct (file_lines text) as [|line lines].
    + repeat constructor; [simpl; lia|].
      exists (String a EmptyString). simpl. rewrite Ha. auto.
    + apply Forall_cons in IH as [[Hcount (body & Hbody & Hline)] Hrest].
      constructor.
      * split; [simpl; lia|]. exists (String a body). simpl. rewrite Ha.
        split; [done|]. destruct Hline as [-> | ->]; auto.
      * eapply Forall_impl; [exact Hrest|]. simpl.
        intros ? [? ?]. split; [lia|done].
Qed.

Lemma read_lines_clean c text :
  Forall (λ line, clean_line line ∧ count_char c line ≤ count_char c text)
    (rstrip <$> file_lines text).
Proof.
  apply Forall_fmap. eapply Forall_impl; [apply (file_lines_pieces c)|].
  simpl. intros line [Hcount (body & Hbody & Hline)]. split.
  - assert (rstrip line = rstrip body) as ->.
    { destruct Hline as [-> | ->]; [done | by apply rstrip_append_space]. }
    split; [|apply rstrip_idemp].
    pose proof (count_char_rstrip "010" body). lia.
  - pose proof (count_char_rstrip c line). lia.
Qed.

End files.



(** X12.  Reading never changes a file.  A missing path raises the
    file-not-found error; otherwise the lines returned are clean: none holds
    a newline and none ends with white space, so that writing them back and
    reading again returns the same lines. *)
Theorem read_lines_from_file_clean (path : string) (fs : gmap string string) :
  (fs !! path = None →
   read_lines_from_file path fs = (Raise (FileNotFoundError path), fs)) ∧
  (∀ text, fs !! path = Some text →
     ∃ lines,
       read_lines_from_file path fs = (Ok lines, fs) ∧
       Forall clean_line lines ∧
       (save_lines_to_file path lines ≫= λ _, read_lines_from_file path) fs
       = (Ok lines, <[path := written_text lines]> fs)).
Proof.
  unfold read_lines_from_file at 1 2. split.
  - by intros ->.
  - intros text ->. eexists. split; [done|].
    assert (Forall clean_line (rstrip <$> file_lines text)) as Hclean.
    { eapply Forall_impl; [apply (read_lines_clean "010")|]. by intros ? [? _]. }
    split; [done|].
    unfold mbind, io_bind, read_lines_from_file.
    rewrite save_lines_to_file_writes, lookup_insert_eq.
    by rewrite read_written_clean.
Qed.

(** * More on the main program *)

Lemma inject_ok_two_markers (readme_lines table_lines spliced : list string) :
  inject_markdown_table_into_readme readme_lines table_lines = Ok spliced →
  marker_count readme_lines = 2.
Proof.
  intros Hok. destruct (decide (marker_count readme_lines = 2)); [done|].
  by rewrite inject_raises in Hok.
Qed.

(** What a run that succeeds has done. *)
Lemma main_ok_steps (args : Args) (fs fs' : gmap string string) :
  main args fs = (Ok (), fs') →
  ∃ data_text readme_text table_entries table_lines spliced,
    fs !! data_path args = Some data_text ∧
    fs !! readme_path args = Some readme_text ∧
    parse_csv_lines (drop 1 (rstrip <$> file_lines data_text)) = Ok table_entries ∧
    render_table_lines table_entries = Ok table_lines ∧
    inject_markdown_table_into_readme (rstrip <$> file_lines readme_text)
      table_lines = Ok spliced ∧
    fs' = <[readme_path args := written_text spliced]> fs.
Proof.
  rewrite main_steps.
  destruct (fs !! data_path args) as [data_text|]; [|done].
  destruct (fs !! readme_path args) as [readme_text|]; [|done].
  destruct (parse_csv_lines _) as [table_entries|] eqn:Hparse; [|done].
  destruct (render_table_lines _) as [table_lines|] eqn:Hrender; [|done].
  destruct (inject_markdown_table_into_readme _ _) as [spliced|] eqn:Hinject;
    [|done].
  rewrite save_lines_to_file_writes. intros [= <-].
  by exists data_text, readme_text, table_entries, table_lines, spliced.
Qed.

(** X13.  The errors of a run come in the order of its steps.  A missing
    data file is reported first, then a missing document, even when the data
    lines are malformed; a line that does not parse is reported before the
    markers of the document are looked at. *)
Theorem main_reports_first_failing_step (args : Args) (fs : gmap string string) :
  (fs !! data_path args = None →
   main args fs = (Raise (FileNotFoundError (data_path args)), fs)) ∧
  (∀ data_text,
     fs !! data_path args = Some data_text →
     fs !! readme_path args = None →
     main args fs = (Raise (FileNotFoundError (readme_path args)), fs)) ∧
  (∀ data_text readme_text e,
     fs !! data_path args = Some data_text →
     fs !! readme_path args = Some readme_text →
     parse_csv_lines (drop 1 (rstrip <$> file_lines data_text)) = Raise e →
     main args fs = (Raise e, fs)).
Proof.
  rewrite main_steps. split_and!.
  - by intros ->.
  - by intros data_text -> ->.
  - by intros data_text readme_text e -> -> ->.
Qed.

Lemma main_reports_first_failing_step_witness :
  let args := {| data_path := "data.csv"; readme_path := "README.md" |} in
  let fs : gmap string string :=
    {[ "data.csv" := written_text ["header"; "only,two"] ]} in
  main args fs = (Raise (FileNotFoundError "README.md"), fs).
Proof.
  intros args fs.
  apply (proj1 (proj2 (main_reports_first_failing_step args fs))
           (written_text ["header"; "only,two"])); reflexivity.
Defined.

(** X14.  A run succeeds only if both files exist, every data line after
    the first parses and the document has exactly two marker lines.  It then
    replaces the text of the document by the spliced lines, each followed by
    a newline, and changes no other file. *)
Theorem main_success_rewrites_document_only (args : Args)
    (fs fs' : gmap string string) :
  main args fs = (Ok (), fs') →
  ∃ data_text readme_text table_entries table_lines spliced,
    fs !! data_path args = Some data_text ∧
    fs !! readme_path args = Some readme_text ∧
    parse_csv_lines (drop 1 (rstrip <$> file_lines data_text)) = Ok table_entries ∧
    render_table_lines table_entries = Ok table_lines ∧
    marker_count (rstrip <$> file_lines readme_text) = 2 ∧
    inject_markdown_table_into_readme (rstrip <$> file_lines readme_text)
      table_lines = Ok spliced ∧
    fs' !! readme_path args = Some (written_text spliced) ∧
    ∀ path, path ≠ readme_path args → fs' !! path = fs !! path.
Proof.
  intros (data_text & readme_text & table_entries & table_lines & spliced
          & Hdata & Hreadme & Hparse & Hrender & Hinject & ->)%main_ok_steps.
  exists data_text, readme_text, table_entries, table_lines, spliced.
  split_and!; try done.
  - by eapply inject_ok_two_markers.
  - apply lookup_insert_eq.
  - intros path Hpath. by apply lookup_insert_ne.
Qed.

(** X15.  Running the program twice is running it once.  When the data file
    and the document are different files and the data file holds no [<], a
    second run after a run that succeeded succeeds too and leaves every file
    as the first run left it. *)
Theorem main_twice_is_main_once (args : Args) (fs fs' : gmap string string)
    (data_text : string) :
  data_path args ≠ readme_path args →
  fs !! data_path args = Some data_text →
  count_char "<" data_text = 0 →
  main args fs = (Ok (), fs') →
  main args fs' = (Ok (), fs').
Proof.
  intros Hpaths Hdata Hangle
    (data_text' & readme_text & table_entries & table_lines & spliced
     & Hdata' & Hreadme & Hparse & Hrender & Hinject & ->)%main_ok_steps.
  rewrite Hdata in Hdata'. injection Hdata' as <-.
  (* the lines of the two files *)
  pose proof (read_lines_clean "<" data_text) as Hdata_lines.
  pose proof (read_lines_clean "<" readme_text) as Hreadme_lines.
  assert (Forall (λ line, count_char "<" line = 0 ∧ count_char "010" line = 0)
            (drop 1 (rstrip <$> file_lines data_text))) as Hcsv.
  { apply Forall_drop. eapply Forall_impl; [exact Hdata_lines|].
    simpl. intros line [[? _] ?]. split; [lia|done]. }
  (* the table is clean and holds no marker *)
  assert (Forall clean_line table_lines) as Htable_clean.
  { apply (rendered_lines_clean table_entries); [done|].
    eapply parsed_entries_free; [done|].
    eapply Forall_impl; [exact Hcsv|]. by intros line [_ ?]. }
  assert (Forall (λ line, has_token line = false) table_lines) as Htable.
  { eapply rendered_lines_without_token; [|done].
    eapply parsed_entries_free; [done|].
    eapply Forall_impl; [exact Hcsv|]. by intros line [? _]. }
  (* the first splice *)
  destruct (two_markers_split _ (inject_ok_two_markers _ _ _ Hinject))
    as (before & first & between & second & after & Hsplit & Hfirst & Hsecond
        & Hbefore & Hbetween & Hafter).
  rewrite Hsplit, inject_split in Hinject by done.
  apply Ok_inj in Hinject as <-.
  assert (Forall clean_line ((before ++ [first]) ++ table_lines ++ second :: after))
    as Hclean.
  { rewrite Hsplit in Hreadme_lines.
    apply Forall_app in Hreadme_lines as [Hclean_before Hrest].
    apply Forall_cons in Hrest as [[Hclean_first _] Hrest].
    apply Forall_app in Hrest as [_ Hrest].
    rewrite !Forall_app. split_and!; [| |done|].
    - eapply Forall_impl; [exact Hclean_before|]. by intros line [? _].
    - by constructor.
    - eapply Forall_impl; [exact Hrest|]. by intros line [? _]. }
  (* the second run *)
  rewrite main_steps, lookup_insert_ne, Hdata, lookup_insert_eq by done.
  rewrite Hparse, Hrender, read_written_clean by done.
  rewrite <- (app_assoc before [first]). simpl.
  rewrite inject_split by done.
  rewrite save_lines_to_file_writes, insert_insert_eq.
  by rewrite <- (app_assoc before [first]).
Qed.

Lemma main_twice_is_main_once_witness :
  let args := {| data_path := "data.csv"; readme_path := "README.md" |} in
  let token := AUTOGENERATED_NOTEBOOKS_TABLE_TOKEN in
  let data_text := written_text ["name,notebook"; "A , a.ipynb,,,,2301,models"] in
  let fs : gmap string string :=
    {[ "data.csv" := data_text;
       "README.md" := written_text ["# Notebooks  "; token; "old"; token; "end"] ]} in
  let entry :=
    {| TableEntry.display_name := "A";
       TableEntry.notebook_name := "a.ipynb";
       TableEntry.roboflow_blogpost_path := Some EmptyString;
       TableEntry.youtube_video_path := Some EmptyString;
       TableEntry.github_repository_path := Some EmptyString;
       TableEntry.arxiv_index := Some "2301";
       TableEntry.readme_section := READMESection.MODELS |} in
  let fs' : gmap string string :=
    <["README.md" :=
        written_text
          (["# Notebooks"; token] ++ WARNING_HEADER
           ++ ["## Model Experiments (1 notebooks)"] ++ TABLE_HEADER
           ++ [row_of entry]
           ++ ["## Applied computer vision in real world scenarios (0 notebooks)"]
           ++ TABLE_HEADER ++ [token; "end"])]> fs in
  data_path args ≠ readme_path args ∧
  fs !! data_path args = Some data_text ∧
  count_char "<" data_text = 0 ∧
  main args fs = (Ok (), fs') ∧
  main args fs' = (Ok (), fs').
Proof.
  intros args token data_text fs entry fs'.
  assert (main args fs = (Ok (), fs')) as Hrun by (by vm_compute).
  split_and!; [done | reflexivity | reflexivity | exact Hrun |].
  apply (main_twice_is_main_once args fs fs' data_text);
    [done | reflexivity | reflexivity | exact Hrun].
Defined.

Lemma main_success_rewrites_document_only_witness :
  let args := {| data_path := "data.csv"; readme_path := "README.md" |} in
  let token := AUTOGENERATED_NOTEBOOKS_TABLE_TOKEN in
  let fs : gmap string string :=
    {[ "data.csv" := written_text ["name,notebook"];
       "README.md" := written_text [token; token] ]} in
  let fs' : gmap string string :=
    <["README.md" :=
        written_text
          ([token] ++ WARNING_HEADER
           ++ ["## Model Experiments (0 notebooks)"] ++ TABLE_HEADER
           ++ ["## Applied computer vision in real world scenarios (0 notebooks)"]
           ++ TABLE_HEADER ++ [token])]> fs in
  main args fs = (Ok (), fs') ∧
  ∃ data_text readme_text table_entries table_lines spliced,
    fs !! data_path args = Some data_text ∧
    fs !! readme_path args = Some readme_text ∧
    parse_csv_lines (drop 1 (rstrip <$> file_lines data_text)) = Ok table_entries ∧
    render_table_lines table_entries = Ok table_lines ∧
    marker_count (rstrip <$> file_lines readme_text) = 2 ∧
    inject_markdown_table_into_readme (rstrip <$> file_lines readme_text)
      table_lines = Ok spliced ∧
    fs' !! readme_path args = Some (written_text spliced) ∧
    ∀ path, path ≠ readme_path args → fs' !! path = fs !! path.
Proof.
  intros args token fs fs'.
  assert (main args fs = (Ok (), fs')) as Hrun by (by vm_compute).
  split; [exact Hrun|].
  exact (main_success_rewrites_document_only args fs fs' Hrun).
Defined.

(** * Splicing again *)

(** X16.  A splice keeps the two markers and adds the lines of the table
    that contain the token: the spliced document has two marker lines more
    than the table.  So it can be spliced again exactly when no table line
    contains the token; otherwise the next splice raises. *)
Theorem inject_marker_count (readme_lines table_lines spliced : list string) :
  inject_markdown_table_into_readme readme_lines table_lines = Ok spliced →
  marker_count spliced = 2 + marker_count table_lines ∧
  ((∃ again, inject_markdown_table_into_readme spliced table_lines = Ok again)
   ↔ Forall (λ line, has_token line = false) table_lines).
Proof.
  intros Hinject.
  destruct (two_markers_split _ (inject_ok_two_markers _ _ _ Hinject))
    as (before & first & between & second & after & -> & Hfirst & Hsecond
        & Hbefore & Hbetween & Hafter).
  rewrite inject_split in Hinject by done. apply Ok_inj in Hinject as <-.
  assert (marker_count ((before ++ [first]) ++ table_lines ++ second :: after)
          = 2 + marker_count table_lines) as Hcount.
  { rewrite !marker_count_app, !marker_count_cons, Hfirst, Hsecond.
    rewrite (marker_count_none before), (marker_count_none after) by done.
    change (marker_count []) with 0. lia. }
  split; [done|]. split.
  - intros [again Hagain%inject_ok_two_markers].
    apply marker_count_zero. lia.
  - intros Htable. rewrite <- (app_assoc before [first]). simpl.
    rewrite inject_split by done. eauto.
Qed.

Lemma inject_marker_count_witness :
  let token := AUTOGENERATED_NOTEBOOKS_TABLE_TOKEN in
  let spliced := ["title"; token; "row " +:+ token; token; "end"] in
  inject_markdown_table_into_readme ["title"; token; "old"; token; "end"]
    ["row " +:+ token] = Ok spliced ∧
  marker_count spliced = 2 + marker_count ["row " +:+ token] ∧
  ((∃ again, inject_markdown_table_into_readme spliced ["row " +:+ token]
             = Ok again)
   ↔ Forall (λ line, has_token line = false) ["row " +:+ token]).
Proof.
  intros token spliced. split; [reflexivity|].
  apply (inject_marker_count ["title"; token; "old"; token; "end"]).
  reflexivity.
Defined.

(** X17.  The last splice wins: splicing a second table into a document
    that was spliced with a first table free of the token gives what
    splicing the second table into the original document gives. *)
Theorem inject_twice_keeps_last_table
    (readme_lines table_lines1 table_lines2 spliced : list string) :
  Forall (λ line, has_token line = false) table_lines1 →
  inject_markdown_table_into_readme readme_lines table_lines1 = Ok spliced →
  inject_markdown_table_into_readme spliced table_lines2
  = inject_markdown_table_into_readme readme_lines table_lines2.
Proof.
  intros Htable Hinject.
  destruct (two_markers_split _ (inject_ok_two_markers _ _ _ Hinject))
    as (before & first & between & second & after & -> & Hfirst & Hsecond
        & Hbefore & Hbetween & Hafter).
  rewrite inject_split in Hinject by done. apply Ok_inj in Hinject as <-.
  rewrite <- (app_assoc before [first]). simpl.
  by rewrite !inject_split.
Qed.

Lemma inject_twice_keeps_last_table_witness :
  let token := AUTOGENERATED_NOTEBOOKS_TABLE_TOKEN in
  Forall (λ line, has_token line = false) ["first table"] ∧
  inject_markdown_table_into_readme ["title"; token; "old"; token; "end"]
    ["first table"] = Ok ["title"; token; "first table"; token; "end"] ∧
  inject_markdown_table_into_readme
    ["title"; token; "first table"; token; "end"] ["second"; "table"]
  = inject_markdown_table_into_readme ["title"; token; "old"; token; "end"]
      ["second"; "table"].
Proof.
  intros token. split; [by repeat constructor|]. split; [reflexivity|].
  apply (inject_twice_keeps_last_table _ ["first table"]);
    [by repeat constructor | reflexivity].
Defined.



(** * Parsing and rendering together *)

(** X19.  A line of seven fields with a valid tag always renders, and an
    optional field shows as a badge exactly when the line holds something
    other than white space in its place: fields left empty and fields of
    spaces alone render no badge. *)
Theorem parsed_line_badges (csv_line f0 f1 f2 f3 f4 f5 f6 : string)
    (entry : TableEntry.t) :
  split "," csv_line = [f0; f1; f2; f3; f4; f5; f6] →
  TableEntry.from_csv_line csv_line = Ok entry →
  TableEntry.format entry = Ok (row_of entry) ∧
  (blog_badge entry = EmptyString ↔ strip f2 = EmptyString) ∧
  (youtube_badge entry = EmptyString ↔ strip f3 = EmptyString) ∧
  (github_badge entry = EmptyString ↔ strip f4 = EmptyString) ∧
  (arxiv_badge entry = EmptyString ↔ strip f5 = EmptyString).
Proof.
  intros Hsplit. rewrite (from_csv_line_seven _ _ _ _ _ _ _ _ Hsplit).
  destruct (READMESection.by_value (strip f6)) as [section|e]; [|done].
  intros [= <-]. split; [apply format_row|].
  unfold blog_badge, youtube_badge, github_badge, arxiv_badge. simpl.
  split_and!.
  - by destruct (strip f2).
  - by destruct (strip f3).
  - by destruct (strip f4).
  - by destruct (strip f5).
Qed.

Lemma parsed_line_badges_witness :
  let entry :=
    {| TableEntry.display_name := "A";
       TableEntry.notebook_name := "a.ipynb";
       TableEntry.roboflow_blogpost_path := Some EmptyString;
       TableEntry.youtube_video_path := Some "video";
       TableEntry.github_repository_path := Some EmptyString;
       TableEntry.arxiv_index := Some EmptyString;
       TableEntry.readme_section := READMESection.MODELS |} in
  TableEntry.format entry = Ok (row_of entry) ∧
  (blog_badge entry = EmptyString ↔ strip "   " = EmptyString) ∧
  (youtube_badge entry = EmptyString ↔ strip " video" = EmptyString) ∧
  (github_badge entry = EmptyString ↔ strip EmptyString = EmptyString) ∧
  (arxiv_badge entry = EmptyString ↔ strip " " = EmptyString).
Proof.
  intros entry.
  apply (parsed_line_badges "A,a.ipynb,   , video,, ,models"
           "A" "a.ipynb" "   " " video" EmptyString " " "models" entry);
    reflexivity.
Defined.
